(** * Holiday planner: the date-interval core of [holiday_planner.py] and
    [sample.py], embedded in Rocq.

    The two scripts share one core: [generate_year_dates],
    [compute_off_days], [get_continuous_block] and [find_leave_suggestions].
    Both are embedded below, each from its own source file, over a common
    model of the part of Python's [datetime] module they use. *)

From stdpp Require Import gmap list strings.

Open Scope Z_scope.

(** ** Outcomes of Python code

    A call either returns a value, raises an exception, or (in the model
    only) exhausts the fuel given to a [while] loop.  The theorems show that
    the fuel chosen in each function is always enough. *)

Inductive exn := ValueError | OverflowError.

Inductive result (A : Type) :=
  | Ok (a : A)
  | Raise (e : exn)
  | OutOfFuel.
Arguments Ok {A} a.
Arguments Raise {A} e.
Arguments OutOfFuel {A}.

#[global] Instance result_ret : MRet result := @Ok.
#[global] Instance result_bind : MBind result := λ A B f m,
  match m with
  | Ok a => f a
  | Raise e => Raise e
  | OutOfFuel => OutOfFuel
  end.
#[global] Instance result_fmap : FMap result := λ A B f m,
  match m with
  | Ok a => Ok (f a)
  | Raise e => Raise e
  | OutOfFuel => OutOfFuel
  end.

#[global] Instance exn_eq_dec : EqDecision exn.
Proof. solve_decision. Defined.

(** A [for x in l] loop whose body may raise: the state is threaded through
    the elements of [l] from left to right and the first exception stops the
    iteration. *)
Fixpoint for_each {A S : Type} (body : S → A → result S) (s : S) (l : list A)
  : result S :=
  match l with
  | [] => Ok s
  | x :: l' => s' ← body s x; for_each body s' l'
  end.

(** ** [datetime.date]

    A date is represented by its proleptic Gregorian ordinal, the value of
    [date.toordinal()]: 1 is 0001-01-01 and [_MAXORDINAL] is 9999-12-31.
    Comparison, hashing and subtraction of dates agree with those of the
    ordinals; adding a [timedelta] checks the range as [date.__add__]
    does. *)
Module datetime.

Definition MINYEAR : Z := 1.
Definition MAXYEAR : Z := 9999.
Definition _MAXORDINAL : Z := 3652059.

Definition _is_leap (year : Z) : bool :=
  bool_decide (year `mod` 4 = 0)
  && (negb (bool_decide (year `mod` 100 = 0))
      || bool_decide (year `mod` 400 = 0)).

Definition _days_before_year (year : Z) : Z :=
  let y := year - 1 in
  y * 365 + y `div` 4 - y `div` 100 + y `div` 400.

Definition _DAYS_IN_MONTH : list Z :=
  [31; 28; 31; 30; 31; 30; 31; 31; 30; 31; 30; 31].

Definition _DAYS_BEFORE_MONTH : list Z :=
  [0; 31; 59; 90; 120; 151; 181; 212; 243; 273; 304; 334].

(** [month] is in 1..12 at every call. *)
Definition _days_in_month (year month : Z) : Z :=
  if bool_decide (month = 2) && _is_leap year then 29
  else default 0 (_DAYS_IN_MONTH !! Z.to_nat (month - 1)).

Definition _days_before_month (year month : Z) : Z :=
  default 0 (_DAYS_BEFORE_MONTH !! Z.to_nat (month - 1))
  + (if bool_decide (2 < month) && _is_leap year then 1 else 0).

Definition _ymd2ord (year month day : Z) : Z :=
  _days_before_year year + _days_before_month year month + day.

(** The range of a C [int], to which the constructor of [date] converts
    its arguments. *)
Definition INT_MIN : Z := -2147483648.
Definition INT_MAX : Z := 2147483647.

(** [datetime.date(year, month, day)]: the constructor converts its three
    arguments to C [int] and raises [OverflowError] when one of them does
    not fit; it then checks the fields and raises [ValueError] outside
    the supported range. *)
Definition date (year month day : Z) : result Z :=
  if negb (bool_decide (INT_MIN ≤ year ≤ INT_MAX)) then Raise OverflowError
  else if negb (bool_decide (INT_MIN ≤ month ≤ INT_MAX))
  then Raise OverflowError
  else if negb (bool_decide (INT_MIN ≤ day ≤ INT_MAX))
  then Raise OverflowError
  else if negb (bool_decide (MINYEAR ≤ year ≤ MAXYEAR)) then Raise ValueError
  else if negb (bool_decide (1 ≤ month ≤ 12)) then Raise ValueError
  else if negb (bool_decide (1 ≤ day ≤ _days_in_month year month))
  then Raise ValueError
  else Ok (_ymd2ord year month day).

(** [d + timedelta(days=n)], and [d - timedelta(days=n)] which Python
    computes as [d + timedelta(days=-n)]. *)
Definition date_add (d n : Z) : result Z :=
  let o := d + n in
  if bool_decide (0 < o ≤ _MAXORDINAL) then Ok o else Raise OverflowError.

Definition date_sub (d n : Z) : result Z := date_add d (- n).

(** [(d2 - d1).days] *)
Definition days_between (d2 d1 : Z) : Z := d2 - d1.

(** [d.weekday()]: 0 is Monday, 6 is Sunday. *)
Definition weekday (d : Z) : Z := (d + 6) `mod` 7.

(** The values a [date] object can take. *)
Definition valid_date (d : Z) : Prop := 1 ≤ d ≤ _MAXORDINAL.

End datetime.

(** A suggestion is the dictionary with keys ["leave_day"], ["block_start"],
    ["block_end"] and ["block_length"] that both scripts build. *)
Record suggestion := Suggestion {
  leave_day : Z;
  block_start : Z;
  block_end : Z;
  block_length : Z
}.

#[global] Instance suggestion_eq_dec : EqDecision suggestion.
Proof. solve_decision. Defined.

(** ** [holiday_planner.py] *)
Module holiday_planner.
Import datetime.

(** The loop [while current <= end: dates.append(current); current += delta]. *)
Fixpoint generate_year_dates_loop (fuel : nat) (end_ current : Z)
    (dates : list Z) : result (list Z) :=
  if bool_decide (current ≤ end_) then
    match fuel with
    | O => OutOfFuel
    | S fuel' =>
        current' ← date_add current 1;
        generate_year_dates_loop fuel' end_ current' (dates ++ [current])
    end
  else Ok dates.

Definition generate_year_dates (year : Z) : result (list Z) :=
  start ← date year 1 1;
  end_ ← date year 12 31;
  generate_year_dates_loop (Z.to_nat (end_ - start + 1)) end_ start [].

Definition compute_off_days (year : Z) (holidays : gset Z)
    (working_days : list Z) : result (gset Z) :=
  dates ← generate_year_dates year;
  let off_days := holidays in
  Ok (foldl (λ (off_days : gset Z) d,
               if negb (bool_decide (weekday d ∈ working_days))
               then {[d]} ∪ off_days else off_days)
            off_days dates).

(** [while prev in off_set: start = prev; prev -= delta] *)
Fixpoint expand_backwards (fuel : nat) (off_set : gset Z) (start prev : Z)
    : result Z :=
  if bool_decide (prev ∈ off_set) then
    match fuel with
    | O => OutOfFuel
    | S fuel' =>
        prev' ← date_sub prev 1;
        expand_backwards fuel' off_set prev prev'
    end
  else Ok start.

(** [while nxt in off_set: end = nxt; nxt += delta] *)
Fixpoint expand_forwards (fuel : nat) (off_set : gset Z) (end_ nxt : Z)
    : result Z :=
  if bool_decide (nxt ∈ off_set) then
    match fuel with
    | O => OutOfFuel
    | S fuel' =>
        nxt' ← date_add nxt 1;
        expand_forwards fuel' off_set nxt nxt'
    end
  else Ok end_.

(** Each iteration of either loop finds a new member of [off_set], so one
    more than its size bounds the number of tests. *)
Definition get_continuous_block (candidate : Z) (off_set : gset Z)
    : result (Z * Z * Z) :=
  let start := candidate in
  let end_ := candidate in
  prev ← date_sub candidate 1;
  start ← expand_backwards (S (size off_set)) off_set start prev;
  nxt ← date_add candidate 1;
  end_ ← expand_forwards (S (size off_set)) off_set end_ nxt;
  let block_length := days_between end_ start + 1 in
  Ok (start, end_, block_length).

(** The test [(d - 1 day in off_days) or (d + 1 day in off_days)]: [or]
    evaluates its right operand only when the left one is false. *)
Definition neighbour_off (d : Z) (off_days : gset Z) : result bool :=
  p ← date_sub d 1;
  if bool_decide (p ∈ off_days) then Ok true
  else n ← date_add d 1; Ok (bool_decide (n ∈ off_days)).

(** The body of the loop [for d in dates]. *)
Definition scan_day (off_days : gset Z) (working_days : list Z)
    (threshold : Z) (suggestions : list suggestion) (d : Z)
    : result (list suggestion) :=
  if bool_decide (weekday d ∈ working_days)
     && negb (bool_decide (d ∈ off_days)) then
    near ← neighbour_off d off_days;
    if (near : bool) then
      let new_off := {[d]} ∪ off_days in
      '(start, end_, block_length) ← get_continuous_block d new_off;
      if bool_decide (threshold ≤ block_length) then
        Ok (suggestions ++ [Suggestion d start end_ block_length])
      else Ok suggestions
    else Ok suggestions
  else Ok suggestions.

Definition find_leave_suggestions (year : Z) (off_days : gset Z)
    (working_days : list Z) (threshold : Z) : result (list suggestion) :=
  dates ← generate_year_dates year;
  for_each (scan_day off_days working_days threshold) [] dates.

(** The two calls that [main] makes between parsing and printing. *)
Definition main_suggestions (year : Z) (holidays : gset Z)
    (working_days : list Z) (threshold : Z) : result (list suggestion) :=
  off_days ← compute_off_days year holidays working_days;
  find_leave_suggestions year off_days working_days threshold.

End holiday_planner.

(** ** [sample.py]

    The second script repeats the four functions; [compute_off_days] takes
    one more argument, [include_sundays]. *)
Module sample.
Import datetime.

Fixpoint generate_year_dates_loop (fuel : nat) (end_ current : Z)
    (dates : list Z) : result (list Z) :=
  if bool_decide (current ≤ end_) then
    match fuel with
    | O => OutOfFuel
    | S fuel' =>
        current' ← date_add current 1;
        generate_year_dates_loop fuel' end_ current' (dates ++ [current])
    end
  else Ok dates.

Definition generate_year_dates (year : Z) : result (list Z) :=
  start ← date year 1 1;
  end_ ← date year 12 31;
  generate_year_dates_loop (Z.to_nat (end_ - start + 1)) end_ start [].

Definition compute_off_days (year : Z) (holidays : gset Z)
    (working_days : list Z) (include_sundays : bool) : result (gset Z) :=
  dates ← generate_year_dates year;
  let off_days := holidays in
  let off_days :=
    if include_sundays then
      foldl (λ (off_days : gset Z) d,
               if bool_decide (weekday d = 6)
               then {[d]} ∪ off_days else off_days)
            off_days dates
    else off_days in
  Ok (foldl (λ (off_days : gset Z) d,
               if negb (bool_decide (weekday d ∈ working_days))
               then {[d]} ∪ off_days else off_days)
            off_days dates).

Fixpoint expand_backwards (fuel : nat) (off_set : gset Z) (start prev : Z)
    : result Z :=
  if bool_decide (prev ∈ off_set) then
    match fuel with
    | O => OutOfFuel
    | S fuel' =>
        prev' ← date_sub prev 1;
        expand_backwards fuel' off_set prev prev'
    end
  else Ok start.

Fixpoint expand_forwards (fuel : nat) (off_set : gset Z) (end_ nxt : Z)
    : result Z :=
  if bool_decide (nxt ∈ off_set) then
    match fuel with
    | O => OutOfFuel
    | S fuel' =>
        nxt' ← date_add nxt 1;
        expand_forwards fuel' off_set nxt nxt'
    end
  else Ok end_.

Definition get_continuous_block (candidate : Z) (off_set : gset Z)
    : result (Z * Z * Z) :=
  let start := candidate in
  let end_ := candidate in
  prev ← date_sub candidate 1;
  start ← expand_backwards (S (size off_set)) off_set start prev;
  nxt ← date_add candidate 1;
  end_ ← expand_forwards (S (size off_set)) off_set end_ nxt;
  let block_length := days_between end_ start + 1 in
  Ok (start, end_, block_length).

Definition neighbour_off (d : Z) (off_days : gset Z) : result bool :=
  p ← date_sub d 1;
  if bool_decide (p ∈ off_days) then Ok true
  else n ← date_add d 1; Ok (bool_decide (n ∈ off_days)).

Definition scan_day (off_days : gset Z) (working_days : list Z)
    (threshold : Z) (suggestions : list suggestion) (d : Z)
    : result (list suggestion) :=
  if bool_decide (weekday d ∈ working_days)
     && negb (bool_decide (d ∈ off_days)) then
    near ← neighbour_off d off_days;
    if (near : bool) then
      let new_off := {[d]} ∪ off_days in
      '(start, end_, block_length) ← get_continuous_block d new_off;
      if bool_decide (threshold ≤ block_length) then
        Ok (suggestions ++ [Suggestion d start end_ block_length])
      else Ok suggestions
    else Ok suggestions
  else Ok suggestions.

Definition find_leave_suggestions (year : Z) (off_days : gset Z)
    (working_days : list Z) (threshold : Z) : result (list suggestion) :=
  dates ← generate_year_dates year;
  for_each (scan_day off_days working_days threshold) [] dates.

End sample.

(** ** The scan of [holiday_planner.py] over a store of set objects

    Python sets are mutable objects handled by reference.  Here a store
    holds the contents of every set object, a reference is an index into
    it, and [set(s)] allocates a new object at the end of the store.  The
    functions below are those of [holiday_planner.py] once more, with
    [off_days] and [off_set] as references. *)
Module store.
Import datetime.

Abbreviation ref := nat (only parsing).
Abbreviation heap := (list (gset Z)) (only parsing).

(** A computation returns an outcome and the store it leaves behind; the
    store survives an exception. *)
Definition state (A : Type) : Type := heap → result A * heap.

Definition ret {A} (a : A) : state A := λ h, (Ok a, h).

Definition bind {A B} (m : state A) (f : A → state B) : state B := λ h,
  match m h with
  | (Ok a, h') => f a h'
  | (Raise e, h') => (Raise e, h')
  | (OutOfFuel, h') => (OutOfFuel, h')
  end.

Definition lift {A} (r : result A) : state A := λ h, (r, h).

Notation "x ⇐ m ; f" := (bind m (λ x, f))
  (at level 20, m at level 100, f at level 200, only parsing).

(** The contents of a set object (no reference dangles in Python; the
    model reads the empty set there). *)
Definition contents (h : heap) (r : ref) : gset Z := default ∅ (h !! r).

(** [x in s] *)
Definition set_contains (x : Z) (r : ref) : state bool := λ h,
  (Ok (bool_decide (x ∈ contents h r)), h).

(** [len(s)], used for the fuel of the loops only. *)
Definition set_size (r : ref) : state nat := λ h,
  (Ok (size (contents h r)), h).

(** [set(s)]: a new object with the same elements. *)
Definition set_copy (r : ref) : state ref := λ h,
  (Ok (length h), h ++ [contents h r]).

(** [s.add(x)]: the object is updated in place. *)
Definition set_add (r : ref) (x : Z) : state unit := λ h,
  (Ok tt, alter (λ s, {[x]} ∪ s) r h).

Fixpoint for_each_state {A S : Type} (body : S → A → state S) (s : S)
    (l : list A) : state S :=
  match l with
  | [] => ret s
  | x :: l' => s' ⇐ body s x; for_each_state body s' l'
  end.

Fixpoint expand_backwards (fuel : nat) (off_set : ref) (start prev : Z)
    : state Z :=
  b ⇐ set_contains prev off_set;
  if (b : bool) then
    match fuel with
    | O => lift OutOfFuel
    | S fuel' =>
        prev' ⇐ lift (date_sub prev 1);
        expand_backwards fuel' off_set prev prev'
    end
  else ret start.

Fixpoint expand_forwards (fuel : nat) (off_set : ref) (end_ nxt : Z)
    : state Z :=
  b ⇐ set_contains nxt off_set;
  if (b : bool) then
    match fuel with
    | O => lift OutOfFuel
    | S fuel' =>
        nxt' ⇐ lift (date_add nxt 1);
        expand_forwards fuel' off_set nxt nxt'
    end
  else ret end_.

Definition get_continuous_block (candidate : Z) (off_set : ref)
    : state (Z * Z * Z) :=
  let start := candidate in
  let end_ := candidate in
  n ⇐ set_size off_set;
  prev ⇐ lift (date_sub candidate 1);
  start ⇐ expand_backwards (S n) off_set start prev;
  nxt ⇐ lift (date_add candidate 1);
  end_ ⇐ expand_forwards (S n) off_set end_ nxt;
  let block_length := days_between end_ start + 1 in
  ret (start, end_, block_length).

Definition neighbour_off (d : Z) (off_days : ref) : state bool :=
  p ⇐ lift (date_sub d 1);
  b ⇐ set_contains p off_days;
  if (b : bool) then ret true
  else n ⇐ lift (date_add d 1); set_contains n off_days.

Definition scan_day (off_days : ref) (working_days : list Z)
    (threshold : Z) (suggestions : list suggestion) (d : Z)
    : state (list suggestion) :=
  if bool_decide (weekday d ∈ working_days) then
    is_off ⇐ set_contains d off_days;
    if negb is_off then
      near ⇐ neighbour_off d off_days;
      if (near : bool) then
        new_off ⇐ set_copy off_days;
        _ ⇐ set_add new_off d;
        blk ⇐ get_continuous_block d new_off;
        let '(start, end_, block_length) := blk in
        if bool_decide (threshold ≤ block_length) then
          ret (suggestions ++ [Suggestion d start end_ block_length])
        else ret suggestions
      else ret suggestions
    else ret suggestions
  else ret suggestions.

Definition find_leave_suggestions (year : Z) (off_days : ref)
    (working_days : list Z) (threshold : Z) : state (list suggestion) :=
  dates ⇐ lift (holiday_planner.generate_year_dates year);
  for_each_state (scan_day off_days working_days threshold) [] dates.

End store.

(** ** The input functions and [main] of the two scripts

    The files themselves are outside the model.  A CSV file is given as the
    rows that [csv.reader] yields, each a list of cells (the empty list for
    a blank line); an ICS file as the components that [Calendar.walk]
    yields, each with its [name] and the value of its [dtstart] property
    when it has one; the command line as the values that [parse_args]
    returns. *)

(** The value of a DTSTART property: a [date], or a [datetime] with the
    time of the day in seconds. *)
Inductive dt_value :=
  | DateValue (d : Z)
  | DateTimeValue (d : Z) (seconds : Z).

Record component := Component {
  name : string;
  dtstart : option dt_value
}.

(** What ends a script's function besides a returned value: an exception of
    the core, [AttributeError], [IndexError], [ZeroDivisionError], or
    [sys.exit(code)]. *)
Inductive error :=
  | Builtin (e : exn)
  | AttributeError
  | IndexError
  | ZeroDivisionError
  | SystemExit (code : Z).

Inductive run (A : Type) :=
  | Returns (a : A)
  | Fails (e : error)
  | NoFuel.
Arguments Returns {A} a.
Arguments Fails {A} e.
Arguments NoFuel {A}.

#[global] Instance run_ret : MRet run := @Returns.
#[global] Instance run_bind : MBind run := λ A B f m,
  match m with
  | Returns a => f a
  | Fails e => Fails e
  | NoFuel => NoFuel
  end.

Definition of_result {A} (r : result A) : run A :=
  match r with
  | Ok a => Returns a
  | Raise e => Fails (Builtin e)
  | OutOfFuel => NoFuel
  end.

(** [dt.date() if isinstance(dt, datetime.datetime) else dt] *)
Definition date_of (dt : dt_value) : Z :=
  match dt with
  | DateValue d => d
  | DateTimeValue d _ => d
  end.

(** [sum(1 for d in dates if d.weekday() in working_days)] *)
Definition count_working_days (working_days : list Z) (dates : list Z) : Z :=
  foldl (λ total d,
           if bool_decide (datetime.weekday d ∈ working_days)
           then total + 1 else total) 0 dates.

Module holiday_planner_script.
Import datetime holiday_planner.

(** The loop of [parse_ics]: [component.get('dtstart')] is [None] for a
    component without the property, and [None.dt] raises
    [AttributeError], which nothing catches. *)
Fixpoint parse_ics_loop (holidays : gset Z) (walk : list component)
    : run (gset Z) :=
  match walk with
  | [] => Returns holidays
  | component :: walk' =>
      if bool_decide (name component = "VEVENT") then
        match dtstart component with
        | None => Fails AttributeError
        | Some dt => parse_ics_loop ({[date_of dt]} ∪ holidays) walk'
        end
      else parse_ics_loop holidays walk'
  end.

Definition parse_ics (walk : list component) : run (gset Z) :=
  parse_ics_loop ∅ walk.

(** [parse_csv].  [strptime s] stands for
    [datetime.datetime.strptime(s, '%Y-%m-%d').date()]: [None] when it
    raises [ValueError].  A row with no cell raises [IndexError] at
    [row[0]]; [except Exception] catches both and goes on to the next
    row. *)
Definition parse_csv (strptime : string → option Z)
    (rows : list (list string)) : gset Z :=
  foldl (λ (holidays : gset Z) (row : list string),
           match row !! 0%nat with
           | None => holidays
           | Some cell =>
               match strptime cell with
               | Some dt => {[dt]} ∪ holidays
               | None => holidays
               end
           end) ∅ rows.

(** [main] from the call of [compute_off_days] to the division: it
    returns the suggestions and [total_working_days], which the printing
    that follows reads. *)
Definition main (year : Z) (holidays : gset Z) (working_days : list Z)
    (threshold : Z) : run (list suggestion * Z) :=
  off_days ← of_result (compute_off_days year holidays working_days);
  suggestions ←
    of_result (find_leave_suggestions year off_days working_days threshold);
  dates ← of_result (generate_year_dates year);
  let total_working_days := count_working_days working_days dates in
  if bool_decide (total_working_days = 0) then Fails ZeroDivisionError
  else Returns (suggestions, total_working_days).

End holiday_planner_script.

Module sample_script.
Import datetime.

(** The loop of [parse_ics], as in the first script. *)
Fixpoint parse_ics_loop (holidays : gset Z) (walk : list component)
    : run (gset Z) :=
  match walk with
  | [] => Returns holidays
  | component :: walk' =>
      if bool_decide (name component = "VEVENT") then
        match dtstart component with
        | None => Fails AttributeError
        | Some dt => parse_ics_loop ({[date_of dt]} ∪ holidays) walk'
        end
      else parse_ics_loop holidays walk'
  end.

(** [parse_ics]: here the loop is inside [try], and [except Exception]
    prints the error and calls [sys.exit(1)]. *)
Definition parse_ics (walk : list component) : run (gset Z) :=
  match parse_ics_loop ∅ walk with
  | Returns holidays => Returns holidays
  | Fails _ => Fails (SystemExit 1)
  | NoFuel => NoFuel
  end.

(** The loop over the rows in [parse_csv]: only [ValueError] is caught
    inside the loop. *)
Fixpoint parse_csv_loop (strptime : string → option Z) (holidays : gset Z)
    (rows : list (list string)) : run (gset Z) :=
  match rows with
  | [] => Returns holidays
  | row :: rows' =>
      match row !! 0%nat with
      | None => Fails IndexError
      | Some cell =>
          match strptime cell with
          | Some dt => parse_csv_loop strptime ({[dt]} ∪ holidays) rows'
          | None => parse_csv_loop strptime holidays rows'
          end
      end
  end.

(** [parse_csv].  [pandas] stands for the three statements of the pandas
    branch: the set they assign to [holidays], or [None] when one of them
    raises.  Every exception that leaves the loop reaches
    [except Exception], which calls [sys.exit(1)]. *)
Definition parse_csv (strptime : string → option Z)
    (PANDAS_AVAILABLE : bool) (pandas : option (gset Z))
    (rows : list (list string)) (use_pandas : bool) : run (gset Z) :=
  let holidays : gset Z := ∅ in
  let '(holidays, use_pandas) :=
    if use_pandas && PANDAS_AVAILABLE then
      match pandas with
      | Some from_pandas => (from_pandas, use_pandas)
      | None => (holidays, false)
      end
    else (holidays, use_pandas) in
  if negb use_pandas then
    match parse_csv_loop strptime holidays rows with
    | Returns holidays => Returns holidays
    | Fails _ => Fails (SystemExit 1)
    | NoFuel => NoFuel
    end
  else Returns holidays.

Definition main (year : Z) (holidays : gset Z) (working_days : list Z)
    (threshold : Z) (include_sundays : bool) : run (list suggestion * Z) :=
  off_days ←
    of_result
      (sample.compute_off_days year holidays working_days include_sundays);
  suggestions ←
    of_result
      (sample.find_leave_suggestions year off_days working_days threshold);
  dates ← of_result (sample.generate_year_dates year);
  let total_working_days := count_working_days working_days dates in
  if bool_decide (total_working_days = 0) then Fails ZeroDivisionError
  else Returns (suggestions, total_working_days).

End sample_script.

(** ** [compute_off_days] over a store of set objects *)
Module store_off_days.
Import datetime store.

(** [off_days = set(holidays)], then [off_days.add(d)] for every date of
    the year that is not a working day; the reference of the new object is
    returned. *)
Definition compute_off_days (year : Z) (holidays : nat)
    (working_days : list Z) : state nat :=
  dates ⇐ lift (holiday_planner.generate_year_dates year);
  off_days ⇐ set_copy holidays;
  _ ⇐ for_each_state
        (λ (_ : unit) d,
           if negb (bool_decide (weekday d ∈ working_days))
           then set_add off_days d else ret tt) tt dates;
  ret off_days.

(** The two calls of [main], on the set object that the parser returned. *)
Definition main_suggestions (year : Z) (holidays : nat)
    (working_days : list Z) (threshold : Z) : state (list suggestion) :=
  off_days ⇐ compute_off_days year holidays working_days;
  find_leave_suggestions year off_days working_days threshold.

End store_off_days.

(** ** Vocabulary of the statements *)

Import datetime.

(** The first and the last day of a year, and the number of its days. *)
Definition days_in_year (year : Z) : Z := if _is_leap year then 366 else 365.
Definition year_start (year : Z) : Z := _ymd2ord year 1 1.
Definition year_end (year : Z) : Z := _ymd2ord year 12 31.

(** What every record of the output of the scan satisfies. *)
Definition genuine_suggestion (year : Z) (off_days : gset Z)
    (working_days : list Z) (threshold : Z) (s : suggestion) : Prop :=
  year_start year ≤ leave_day s ≤ year_end year ∧
  weekday (leave_day s) ∈ working_days ∧
  (leave_day s ∉ off_days) ∧
  (leave_day s - 1 ∈ off_days ∨ leave_day s + 1 ∈ off_days) ∧
  holiday_planner.get_continuous_block (leave_day s)
    ({[leave_day s]} ∪ off_days)
  = Ok (block_start s, block_end s, block_length s) ∧
  threshold ≤ block_length s.

(** Some date that is not a holiday lies strictly between [h] and the
    year. *)
Definition separated (year : Z) (holidays : gset Z) (h : Z) : Prop :=
  ∃ g, (g ∉ holidays) ∧
       ((h < g ∧ g < year_start year) ∨ (year_end year < g ∧ g < h)).

(** The dates of a list that the scan evaluates: working days that are
    not off and have an off day right before or after them. *)
Definition candidates (off_days : gset Z) (working_days : list Z)
    (dates : list Z) : list Z :=
  filter (λ d, weekday d ∈ working_days ∧ (d ∉ off_days) ∧
               (d - 1 ∈ off_days ∨ d + 1 ∈ off_days)) dates.

(** Working-day lists: Monday to Saturday, and Monday to Friday. *)
Definition six_day_week : list Z := [0; 1; 2; 3; 4; 5].
Definition monday_to_friday : list Z := [0; 1; 2; 3; 4].

(** Christmas Day and 27 December 2023, a Monday and a Wednesday. *)
Definition christmas_2023 : gset Z := {[738879; 738881]}.

(** Reduces a bind whose first computation is a known outcome and leaves
    the loops folded. *)
Tactic Notation "bind_step" := cbn [mbind result_bind].
Tactic Notation "bind_step" "in" hyp(H) := cbn [mbind result_bind] in H.

(** * Facts about the calendar *)

Section calendar_facts.

Lemma result_bind_Ok {A B} (m : result A) (f : A → result B) b :
  m ≫= f = Ok b ↔ ∃ a, m = Ok a ∧ f a = Ok b.
Proof.
  destruct m; simpl; split; try done; try (intros (? & ? & ?); done).
  - eauto.
  - intros (? & [= <-] & ?). done.
Qed.

Lemma date_add_Ok d n r :
  date_add d n = Ok r ↔ r = d + n ∧ 0 < d + n ≤ _MAXORDINAL.
Proof.
  unfold date_add. case_bool_decide; split; try done.
  - intros [= <-]. done.
  - intros [-> _]. done.
  - intros [_ ?]. done.
Qed.

Lemma date_add_in_range d n :
  0 < d + n ≤ _MAXORDINAL → date_add d n = Ok (d + n).
Proof. intros. by apply date_add_Ok. Qed.

Lemma date_add_Raise d n e :
  date_add d n = Raise e ↔
  e = OverflowError ∧ ¬ (0 < d + n ≤ _MAXORDINAL).
Proof.
  unfold date_add. case_bool_decide; split; try done.
  - intros [_ ?]. done.
  - intros [= <-]. done.
  - intros [-> _]. done.
Qed.

Lemma date_add_not_OutOfFuel d n : date_add d n ≠ OutOfFuel.
Proof. unfold date_add. by case_bool_decide. Qed.

Lemma date_sub_Ok d n r :
  date_sub d n = Ok r ↔ r = d - n ∧ 0 < d - n ≤ _MAXORDINAL.
Proof.
  unfold date_sub. rewrite date_add_Ok.
  replace (d + - n) with (d - n) by lia. done.
Qed.

Lemma date_sub_in_range d n :
  0 < d - n ≤ _MAXORDINAL → date_sub d n = Ok (d - n).
Proof. intros. by apply date_sub_Ok. Qed.

Lemma date_sub_Raise d n e :
  date_sub d n = Raise e ↔
  e = OverflowError ∧ ¬ (0 < d - n ≤ _MAXORDINAL).
Proof.
  unfold date_sub. rewrite date_add_Raise.
  replace (d + - n) with (d - n) by lia. done.
Qed.

Lemma date_sub_not_OutOfFuel d n : date_sub d n ≠ OutOfFuel.
Proof. apply date_add_not_OutOfFuel. Qed.

Lemma weekday_range d : 0 ≤ weekday d ≤ 6.
Proof. unfold weekday. pose proof (Z.mod_pos_bound (d + 6) 7). lia. Qed.

Lemma is_leap_true year :
  _is_leap year = true ↔
  year `mod` 4 = 0 ∧ (year `mod` 100 ≠ 0 ∨ year `mod` 400 = 0).
Proof.
  unfold _is_leap. repeat case_bool_decide; simpl; intuition congruence.
Qed.

Lemma days_before_year_succ year :
  _days_before_year (year + 1) = _days_before_year year + days_in_year year.
Proof.
  unfold _days_before_year, days_in_year, _is_leap.
  repeat case_bool_decide; simpl; Z.div_mod_to_equations; lia.
Qed.

Lemma days_before_year_mono y1 y2 :
  y1 ≤ y2 → _days_before_year y1 ≤ _days_before_year y2.
Proof. unfold _days_before_year. intros. Z.div_mod_to_equations. lia. Qed.

Lemma days_before_year_range year :
  MINYEAR ≤ year ≤ MAXYEAR + 1 →
  0 ≤ _days_before_year year ≤ _MAXORDINAL.
Proof.
  unfold _days_before_year, MINYEAR, MAXYEAR, _MAXORDINAL. intros.
  Z.div_mod_to_equations. lia.
Qed.

Lemma days_in_year_cases year : days_in_year year = 365 ∨ days_in_year year = 366.
Proof. unfold days_in_year. destruct (_is_leap year); auto. Qed.

Lemma year_start_eq year : year_start year = _days_before_year year + 1.
Proof. unfold year_start, _ymd2ord, _days_before_month. simpl. lia. Qed.

Lemma year_end_eq year :
  year_end year = _days_before_year year + days_in_year year.
Proof.
  unfold year_end, _ymd2ord, _days_before_month, days_in_year. simpl.
  destruct (_is_leap year); lia.
Qed.

Lemma year_end_succ year : year_start (year + 1) = year_end year + 1.
Proof. rewrite year_start_eq, year_end_eq, days_before_year_succ. lia. Qed.

Lemma year_length year :
  year_end year - year_start year + 1 = days_in_year year.
Proof. rewrite year_start_eq, year_end_eq. lia. Qed.

Lemma year_start_valid year :
  MINYEAR ≤ year ≤ MAXYEAR → 1 ≤ year_start year.
Proof.
  intros. rewrite year_start_eq.
  pose proof (days_before_year_range year). unfold MAXYEAR, MINYEAR in *. lia.
Qed.

Lemma year_end_valid year :
  MINYEAR ≤ year ≤ MAXYEAR → year_end year ≤ _MAXORDINAL.
Proof.
  intros. pose proof (year_end_succ year) as Hs. rewrite year_start_eq in Hs.
  pose proof (days_before_year_range (year + 1)).
  unfold MAXYEAR, MINYEAR in *. lia.
Qed.

Lemma year_end_below_max year :
  MINYEAR ≤ year < MAXYEAR → year_end year + days_in_year (year + 1) ≤ _MAXORDINAL.
Proof.
  intros. pose proof (year_end_valid (year + 1)) as Hv.
  rewrite year_end_eq in Hv. pose proof (year_end_succ year) as Hs.
  rewrite year_start_eq in Hs. unfold MAXYEAR, MINYEAR in *. lia.
Qed.

Lemma year_start_above_min year :
  MINYEAR < year ≤ MAXYEAR → days_in_year (year - 1) < year_start year.
Proof.
  intros. pose proof (year_end_succ (year - 1)) as Hs.
  replace (year - 1 + 1) with year in Hs by lia.
  pose proof (year_length (year - 1)).
  pose proof (year_start_valid (year - 1)). unfold MAXYEAR, MINYEAR in *. lia.
Qed.

Lemma date_jan1 year :
  MINYEAR ≤ year ≤ MAXYEAR → date year 1 1 = Ok (year_start year).
Proof.
  intros. unfold date.
  rewrite (bool_decide_eq_true_2 (INT_MIN ≤ year ≤ INT_MAX))
    by (unfold INT_MIN, INT_MAX, MINYEAR, MAXYEAR in *; lia).
  rewrite (bool_decide_eq_true_2 (MINYEAR ≤ year ≤ MAXYEAR)) by done.
  simpl. reflexivity.
Qed.

Lemma date_dec31 year :
  MINYEAR ≤ year ≤ MAXYEAR → date year 12 31 = Ok (year_end year).
Proof.
  intros. unfold date.
  rewrite (bool_decide_eq_true_2 (INT_MIN ≤ year ≤ INT_MAX))
    by (unfold INT_MIN, INT_MAX, MINYEAR, MAXYEAR in *; lia).
  rewrite (bool_decide_eq_true_2 (MINYEAR ≤ year ≤ MAXYEAR)) by done.
  simpl. reflexivity.
Qed.

Lemma date_bad_year year month day :
  INT_MIN ≤ year ≤ INT_MAX → INT_MIN ≤ month ≤ INT_MAX →
  INT_MIN ≤ day ≤ INT_MAX → ¬ (MINYEAR ≤ year ≤ MAXYEAR) →
  date year month day = Raise ValueError.
Proof.
  intros. unfold date. rewrite !bool_decide_eq_true_2 by done.
  rewrite bool_decide_eq_false_2 by done. done.
Qed.

Lemma date_huge_year year month day :
  ¬ (INT_MIN ≤ year ≤ INT_MAX) → date year month day = Raise OverflowError.
Proof. intros. unfold date. rewrite bool_decide_eq_false_2 by done. done. Qed.

(** A date lies between the first and the last day of its year, and so
    outside every other year. *)
Lemma date_in_year year month day d :
  date year month day = Ok d → year_start year ≤ d ≤ year_end year.
Proof.
  unfold date. repeat (case_bool_decide; simpl; [|done]).
  intros [= <-]. rewrite year_start_eq, year_end_eq. unfold _ymd2ord.
  assert (1 ≤ _days_before_month year month + day ≤ days_in_year year);
    [|lia].
  assert (month = 1 ∨ month = 2 ∨ month = 3 ∨ month = 4 ∨ month = 5 ∨
          month = 6 ∨ month = 7 ∨ month = 8 ∨ month = 9 ∨ month = 10 ∨
          month = 11 ∨ month = 12) as Hm by lia.
  unfold _days_before_month, _days_in_month, days_in_year in *.
  destruct (_is_leap year);
    repeat (destruct Hm as [->|Hm]; [simpl in *; lia|]);
    subst; simpl in *; lia.
Qed.

Lemma year_end_before_later_year y1 y2 :
  y1 < y2 → year_end y1 < year_start y2.
Proof.
  intros. pose proof (year_end_succ y1) as Hs.
  pose proof (days_before_year_mono (y1 + 1) y2).
  rewrite !year_start_eq in *. lia.
Qed.

Lemma date_other_year year year' month day d :
  date year' month day = Ok d → year' ≠ year →
  d < year_start year ∨ year_end year < d.
Proof.
  intros Hd Hne. apply date_in_year in Hd.
  destruct (decide (year' < year)).
  - left. pose proof (year_end_before_later_year year' year). lia.
  - right. pose proof (year_end_before_later_year year year'). lia.
Qed.

End calendar_facts.

(** * The calendar generator *)

Section calendar_generator.
Import holiday_planner.

Lemma generate_year_dates_loop_spec fuel end_ current dates :
  1 ≤ current ≤ end_ + 1 →
  end_ < _MAXORDINAL →
  (Z.to_nat (end_ - current + 1) ≤ fuel)%nat →
  generate_year_dates_loop fuel end_ current dates
  = Ok (dates ++ seqZ current (end_ - current + 1)).
Proof.
  revert current dates.
  induction fuel as [|fuel IH]; intros current dates Hc He Hf; simpl;
    case_bool_decide as Hle.
  - lia.
  - rewrite seqZ_nil by lia. by rewrite app_nil_r.
  - rewrite date_add_in_range by lia. simpl.
    rewrite IH by lia.
    rewrite (seqZ_cons current) by lia.
    rewrite <- app_assoc. simpl.
    replace (Z.succ current) with (current + 1) by lia.
    replace (Z.pred (end_ - current + 1)) with (end_ - (current + 1) + 1)
      by lia.
    done.
  - rewrite seqZ_nil by lia. by rewrite app_nil_r.
Qed.

(** Every year but the last one is enumerated in full. *)
Lemma generate_year_dates_spec year :
  MINYEAR ≤ year < MAXYEAR →
  generate_year_dates year = Ok (seqZ (year_start year) (days_in_year year)).
Proof.
  intros Hy. unfold generate_year_dates.
  rewrite date_jan1, date_dec31 by lia. simpl.
  pose proof (year_length year) as Hlen.
  pose proof (days_in_year_cases year).
  pose proof (days_in_year_cases (year + 1)).
  pose proof (year_end_below_max year Hy).
  pose proof (year_start_valid year).
  rewrite generate_year_dates_loop_spec by lia.
  simpl. by rewrite Hlen.
Qed.

(** The loop computes the day after December 31 before it tests it, and
    no such date exists in the last year. *)
Lemma generate_year_dates_MAXYEAR :
  generate_year_dates MAXYEAR = Raise OverflowError.
Proof. vm_compute. reflexivity. Qed.

(** An integer that is no year of [datetime.date] is rejected by the
    constructor: with [ValueError] when it fits a C [int], with
    [OverflowError] when it does not. *)
Lemma generate_year_dates_bad_year year :
  INT_MIN ≤ year ≤ INT_MAX → ¬ (MINYEAR ≤ year ≤ MAXYEAR) →
  generate_year_dates year = Raise ValueError.
Proof.
  intros. unfold generate_year_dates.
  rewrite (date_bad_year year 1 1); [reflexivity|done|done|done|done].
Qed.

Lemma generate_year_dates_huge_year year :
  ¬ (INT_MIN ≤ year ≤ INT_MAX) →
  generate_year_dates year = Raise OverflowError.
Proof.
  intros. unfold generate_year_dates.
  rewrite (date_huge_year year 1 1) by done. reflexivity.
Qed.

Lemma generate_year_dates_cases year :
  (MINYEAR ≤ year < MAXYEAR ∧
   generate_year_dates year = Ok (seqZ (year_start year) (days_in_year year)))
  ∨ ((year = MAXYEAR ∨ ¬ (INT_MIN ≤ year ≤ INT_MAX)) ∧
     generate_year_dates year = Raise OverflowError)
  ∨ ((INT_MIN ≤ year ≤ INT_MAX ∧ ¬ (MINYEAR ≤ year ≤ MAXYEAR)) ∧
     generate_year_dates year = Raise ValueError).
Proof.
  destruct (decide (MINYEAR ≤ year ≤ MAXYEAR)) as [Hy|Hy].
  - destruct (decide (year = MAXYEAR)) as [->|Hne].
    + right; left. split; [by left | apply generate_year_dates_MAXYEAR].
    + left. split; [lia | apply generate_year_dates_spec; lia].
  - destruct (decide (INT_MIN ≤ year ≤ INT_MAX)) as [Hi|Hi].
    + right; right. split; [done | by apply generate_year_dates_bad_year].
    + right; left.
      split; [by right | by apply generate_year_dates_huge_year].
Qed.

Lemma generate_year_dates_Ok year dates :
  generate_year_dates year = Ok dates →
  MINYEAR ≤ year < MAXYEAR ∧
  dates = seqZ (year_start year) (days_in_year year).
Proof.
  destruct (generate_year_dates_cases year) as [[? ->]|[[? ->]|[? ->]]];
    [intros [= <-] | done | done].
  done.
Qed.

Lemma generate_year_dates_not_OutOfFuel year :
  generate_year_dates year ≠ OutOfFuel.
Proof.
  by destruct (generate_year_dates_cases year) as [[? ->]|[[? ->]|[? ->]]].
Qed.

Lemma elem_of_year year d :
  d ∈ seqZ (year_start year) (days_in_year year) ↔
  year_start year ≤ d ≤ year_end year.
Proof. rewrite elem_of_seqZ. pose proof (year_length year). lia. Qed.

(** X2.  For every year from 1 to 9998 the generator returns the dates from
    January 1 to December 31 of that year: the list starts at January 1
    and ends at December 31, each date is one day after the one before (so
    the list is strictly ascending and has no gap), and its length is 366
    in a leap year of the Gregorian rule and 365 otherwise. *)
Theorem generate_year_dates_correct year :
  MINYEAR ≤ year < MAXYEAR →
  ∃ dates jan1 dec31,
    generate_year_dates year = Ok dates ∧
    date year 1 1 = Ok jan1 ∧ date year 12 31 = Ok dec31 ∧
    head dates = Some jan1 ∧ last dates = Some dec31 ∧
    (∀ d, d ∈ dates ↔ jan1 ≤ d ≤ dec31) ∧
    (∀ (i : nat) d d', dates !! i = Some d → dates !! S i = Some d' →
                       d' = d + 1) ∧
    (∀ (i j : nat) d d', (i < j)%nat → dates !! i = Some d →
                         dates !! j = Some d' → d < d') ∧
    length dates = (if _is_leap year then 366 else 365)%nat.
Proof.
  intros Hy. exists (seqZ (year_start year) (days_in_year year)),
    (year_start year), (year_end year).
  pose proof (days_in_year_cases year) as Hd.
  pose proof (year_length year) as Hlen.
  split; [by apply generate_year_dates_spec|].
  split; [apply date_jan1; lia|]. split; [apply date_dec31; lia|].
  split; [|split; [|split; [|split; [|split]]]].
  - rewrite seqZ_cons by lia. done.
  - rewrite last_lookup, length_seqZ.
    apply lookup_seqZ. split; [|lia].
    replace (Z.of_nat (pred (Z.to_nat (days_in_year year))))
      with (days_in_year year - 1) by lia. lia.
  - apply elem_of_year.
  - intros i d d' Hi Hi'. apply lookup_seqZ in Hi, Hi'. lia.
  - intros i j d d' Hij Hi Hj. apply lookup_seqZ in Hi, Hj. lia.
  - rewrite length_seqZ. unfold days_in_year.
    destruct (_is_leap year); reflexivity.
Qed.

End calendar_generator.

(** * The contiguous-block resolver *)

Section block_walks.
Import holiday_planner.

Implicit Types (off_set : gset Z) (fuel : nat).

(** ** Fuel: every test that succeeds uses up one member of the set *)

Lemma expand_backwards_fuel fuel (X : gset Z) off_set start prev :
  (size X ≤ fuel)%nat →
  (∀ x, x ∈ off_set → x ≤ prev → x ∈ X) →
  expand_backwards fuel off_set start prev ≠ OutOfFuel.
Proof.
  revert X start prev.
  induction fuel as [|fuel IH]; intros X start prev Hsize Hsub; simpl;
    case_bool_decide as Hin; try done.
  - assert (prev ∈ X) by (apply Hsub; [done|lia]).
    assert (size X = 0)%nat as Hz by lia.
    apply size_empty_inv in Hz. set_solver.
  - destruct (date_sub prev 1) as [prev'| |] eqn:Hsub1; simpl; try done.
    + apply date_sub_Ok in Hsub1 as [-> _].
      apply (IH (X ∖ {[prev]})).
      * assert (prev ∈ X) by (apply Hsub; [done|lia]).
        assert (size X = size (X ∖ {[prev]}) + 1)%nat; [|lia].
        rewrite (size_difference X {[prev]}) by set_solver.
        rewrite size_singleton.
        assert (size X ≠ 0)%nat; [|lia].
        intros Hz. apply size_empty_inv in Hz. set_solver.
      * intros x Hx Hle. apply elem_of_difference. split.
        -- apply Hsub; [done|lia].
        -- rewrite elem_of_singleton. lia.
    + by apply date_sub_not_OutOfFuel in Hsub1.
Qed.

Lemma expand_forwards_fuel fuel (X : gset Z) off_set end_ nxt :
  (size X ≤ fuel)%nat →
  (∀ x, x ∈ off_set → nxt ≤ x → x ∈ X) →
  expand_forwards fuel off_set end_ nxt ≠ OutOfFuel.
Proof.
  revert X end_ nxt.
  induction fuel as [|fuel IH]; intros X end_ nxt Hsize Hsub; simpl;
    case_bool_decide as Hin; try done.
  - assert (nxt ∈ X) by (apply Hsub; [done|lia]).
    assert (size X = 0)%nat as Hz by lia.
    apply size_empty_inv in Hz. set_solver.
  - destruct (date_add nxt 1) as [nxt'| |] eqn:Hadd1; simpl; try done.
    + apply date_add_Ok in Hadd1 as [-> _].
      apply (IH (X ∖ {[nxt]})).
      * assert (nxt ∈ X) by (apply Hsub; [done|lia]).
        assert (size X = size (X ∖ {[nxt]}) + 1)%nat; [|lia].
        rewrite (size_difference X {[nxt]}) by set_solver.
        rewrite size_singleton.
        assert (size X ≠ 0)%nat; [|lia].
        intros Hz. apply size_empty_inv in Hz. set_solver.
      * intros x Hx Hle. apply elem_of_difference. split.
        -- apply Hsub; [done|lia].
        -- rewrite elem_of_singleton. lia.
    + by apply date_add_not_OutOfFuel in Hadd1.
Qed.

(** ** What the two loops return *)

Lemma expand_backwards_Ok fuel off_set start prev r :
  expand_backwards fuel off_set start prev = Ok r →
  prev = start - 1 →
  r ≤ start ∧ (∀ x, r ≤ x < start → x ∈ off_set) ∧ (r - 1 ∉ off_set) ∧
  (valid_date prev → valid_date (r - 1)).
Proof.
  revert start prev.
  induction fuel as [|fuel IH]; intros start prev; simpl;
    case_bool_decide as Hin; try done.
  - intros [= <-] ->. split; [lia|]. split; [intros; lia|done].
  - intros Hr ->. apply result_bind_Ok in Hr as (prev' & Hp & Hr).
    apply date_sub_Ok in Hp as [-> Hv].
    destruct (IH _ _ Hr eq_refl) as (Hle & Hall & Hout & Hvalid).
    split; [lia|]. split; [|split; [done|]].
    + intros x Hx. destruct (decide (x = start - 1)) as [->|]; [done|].
      apply Hall. lia.
    + intros _. apply Hvalid. unfold valid_date. lia.
  - intros [= <-] ->. split; [lia|]. split; [intros; lia|done].
Qed.

Lemma expand_forwards_Ok fuel off_set end_ nxt r :
  expand_forwards fuel off_set end_ nxt = Ok r →
  nxt = end_ + 1 →
  end_ ≤ r ∧ (∀ x, end_ < x ≤ r → x ∈ off_set) ∧ (r + 1 ∉ off_set) ∧
  (valid_date nxt → valid_date (r + 1)).
Proof.
  revert end_ nxt.
  induction fuel as [|fuel IH]; intros end_ nxt; simpl;
    case_bool_decide as Hin; try done.
  - intros [= <-] ->. split; [lia|]. split; [intros; lia|done].
  - intros Hr ->. apply result_bind_Ok in Hr as (nxt' & Hp & Hr).
    apply date_add_Ok in Hp as [-> Hv].
    destruct (IH _ _ Hr eq_refl) as (Hle & Hall & Hout & Hvalid).
    split; [lia|]. split; [|split; [done|]].
    + intros x Hx. destruct (decide (x = end_ + 1)) as [->|]; [done|].
      apply Hall. lia.
    + intros _. apply Hvalid. unfold valid_date. lia.
  - intros [= <-] ->. split; [lia|]. split; [intros; lia|done].
Qed.

(** ** When they raise: the run has reached the first or the last date *)

Lemma expand_backwards_Raise fuel off_set start prev e :
  expand_backwards fuel off_set start prev = Raise e →
  prev = start - 1 → start ≤ _MAXORDINAL →
  e = OverflowError ∧ ∀ x, 1 ≤ x < start → x ∈ off_set.
Proof.
  revert start prev.
  induction fuel as [|fuel IH]; intros start prev; simpl;
    case_bool_decide as Hin; try done.
  intros Hr -> Hmax.
  destruct (date_sub (start - 1) 1) as [prev'| |] eqn:Hsub1; simpl in Hr;
    try done.
  - apply date_sub_Ok in Hsub1 as [-> _].
    destruct (IH _ _ Hr eq_refl) as [-> Hall]; [lia|].
    split; [done|]. intros x Hx.
    destruct (decide (x = start - 1)) as [->|]; [done|]. apply Hall. lia.
  - injection Hr as ->. apply date_sub_Raise in Hsub1 as [-> Hout].
    split; [done|]. intros x Hx.
    assert (x = start - 1) as -> by lia. done.
Qed.

Lemma expand_forwards_Raise fuel off_set end_ nxt e :
  expand_forwards fuel off_set end_ nxt = Raise e →
  nxt = end_ + 1 → 1 ≤ end_ →
  e = OverflowError ∧ ∀ x, end_ < x ≤ _MAXORDINAL → x ∈ off_set.
Proof.
  revert end_ nxt.
  induction fuel as [|fuel IH]; intros end_ nxt; simpl;
    case_bool_decide as Hin; try done.
  intros Hr -> Hmin.
  destruct (date_add (end_ + 1) 1) as [nxt'| |] eqn:Hadd1; simpl in Hr;
    try done.
  - apply date_add_Ok in Hadd1 as [-> _].
    destruct (IH _ _ Hr eq_refl) as [-> Hall]; [lia|].
    split; [done|]. intros x Hx.
    destruct (decide (x = end_ + 1)) as [->|]; [done|]. apply Hall. lia.
  - injection Hr as ->. apply date_add_Raise in Hadd1 as [-> Hout].
    split; [done|]. intros x Hx.
    assert (x = end_ + 1) as -> by lia. done.
Qed.

End block_walks.

Section block_resolver.
Import holiday_planner.

Implicit Types (off_set : gset Z) (fuel : nat).

Lemma get_continuous_block_not_OutOfFuel candidate off_set :
  get_continuous_block candidate off_set ≠ OutOfFuel.
Proof.
  unfold get_continuous_block.
  destruct (date_sub candidate 1) as [prev| |] eqn:Hp; bind_step;
    [|done|by apply date_sub_not_OutOfFuel in Hp].
  pose proof (expand_backwards_fuel (S (size off_set)) off_set off_set
                candidate prev) as Hb.
  destruct (expand_backwards (S (size off_set)) off_set candidate prev)
    as [start| |]; bind_step;
    [|done|exfalso; apply Hb; [lia|done|reflexivity]].
  destruct (date_add candidate 1) as [nxt| |] eqn:Hn; bind_step;
    [|done|by apply date_add_not_OutOfFuel in Hn].
  pose proof (expand_forwards_fuel (S (size off_set)) off_set off_set
                candidate nxt) as Hf.
  destruct (expand_forwards (S (size off_set)) off_set candidate nxt)
    as [end_| |]; bind_step;
    [done|done|exfalso; apply Hf; [lia|done|reflexivity]].
Qed.

(** Whatever the set, a returned block is a run of the set around the
    candidate, the candidate itself apart, that cannot be extended. *)
Theorem get_continuous_block_Ok candidate off_set start end_ len :
  get_continuous_block candidate off_set = Ok (start, end_, len) →
  start ≤ candidate ≤ end_ ∧
  len = days_between end_ start + 1 ∧
  (∀ x, start ≤ x ≤ end_ → x ≠ candidate → x ∈ off_set) ∧
  (start - 1 ∉ off_set) ∧ (end_ + 1 ∉ off_set) ∧
  valid_date (start - 1) ∧ valid_date (end_ + 1).
Proof.
  unfold get_continuous_block. intros H.
  apply result_bind_Ok in H as (prev & Hp & H).
  apply result_bind_Ok in H as (s & Hb & H).
  apply result_bind_Ok in H as (nxt & Hn & H).
  apply result_bind_Ok in H as (e & Hf & H).
  injection H as <- <- <-.
  apply date_sub_Ok in Hp as [-> Hpr].
  apply date_add_Ok in Hn as [-> Hnr].
  apply expand_backwards_Ok in Hb as (Hb1 & Hb2 & Hb3 & Hb4); [|done].
  apply expand_forwards_Ok in Hf as (Hf1 & Hf2 & Hf3 & Hf4); [|done].
  split; [lia|]. split; [done|].
  split; [|split; [done|split; [done|split]]].
  - intros x Hx Hne.
    destruct (decide (x < candidate)); [apply Hb2|apply Hf2]; lia.
  - apply Hb4. unfold valid_date. lia.
  - apply Hf4. unfold valid_date. lia.
Qed.
(** An exception means that the run around the candidate includes the
    first or the last date that [datetime.date] can hold. *)
Theorem get_continuous_block_Raise candidate off_set e :
  get_continuous_block candidate off_set = Raise e →
  valid_date candidate →
  e = OverflowError ∧
  ((∀ x, 1 ≤ x < candidate → x ∈ off_set) ∨
   (∀ x, candidate < x ≤ _MAXORDINAL → x ∈ off_set)).
Proof.
  unfold get_continuous_block, valid_date. intros H Hv.
  destruct (date_sub candidate 1) as [prev| |] eqn:Hp; bind_step in H;
    [| |done].
  2: { injection H as ->. apply date_sub_Raise in Hp as [-> Hp].
       split; [done|]. left. intros; lia. }
  apply date_sub_Ok in Hp as [-> Hp].
  destruct (expand_backwards (S (size off_set)) off_set candidate
              (candidate - 1)) as [start| |] eqn:Hb; bind_step in H;
    [| |done].
  2: { injection H as ->.
       apply expand_backwards_Raise in Hb as [-> Hb]; [|done|lia].
       split; [done|]. by left. }
  destruct (date_add candidate 1) as [nxt| |] eqn:Hn; bind_step in H;
    [| |done].
  2: { injection H as ->. apply date_add_Raise in Hn as [-> Hn].
       split; [done|]. right. intros; lia. }
  apply date_add_Ok in Hn as [-> Hn].
  destruct (expand_forwards (S (size off_set)) off_set candidate
              (candidate + 1)) as [end_| |] eqn:Hf; bind_step in H;
    [done| |done].
  injection H as ->.
  apply expand_forwards_Raise in Hf as [-> Hf]; [|done|lia].
  split; [done|]. by right.
Qed.

(** A date outside the set on each side of the candidate is enough for
    the block to be returned. *)
Theorem get_continuous_block_returns candidate off_set lo hi :
  1 ≤ lo < candidate → candidate < hi ≤ _MAXORDINAL →
  lo ∉ off_set → hi ∉ off_set →
  ∃ start end_,
    get_continuous_block candidate off_set
    = Ok (start, end_, end_ - start + 1) ∧
    lo < start ∧ end_ < hi.
Proof.
  intros Hlo Hhi Hlo' Hhi'.
  destruct (get_continuous_block candidate off_set)
    as [[[start end_] len]|e|] eqn:H.
  - apply get_continuous_block_Ok in H as (Hc & -> & Hall & _).
    exists start, end_. split; [done|]. split.
    + destruct (decide (lo < start)); [done|].
      destruct Hlo'. apply Hall; lia.
    + destruct (decide (end_ < hi)); [done|].
      destruct Hhi'. apply Hall; lia.
  - apply get_continuous_block_Raise in H as [_ [H|H]];
      [| |unfold valid_date; lia].
    + destruct Hlo'. apply H. lia.
    + destruct Hhi'. apply H. lia.
  - by apply get_continuous_block_not_OutOfFuel in H.
Qed.

(** X3.  For an anchor in the set whose run stops short of the first and of
    the last date: the block is returned, it contains the anchor, lies in
    the set, cannot be extended, and its length counts its days. *)
Theorem get_continuous_block_correct candidate off_set lo hi :
  candidate ∈ off_set →
  1 ≤ lo < candidate → candidate < hi ≤ _MAXORDINAL →
  lo ∉ off_set → hi ∉ off_set →
  ∃ start end_ len,
    get_continuous_block candidate off_set = Ok (start, end_, len) ∧
    start ≤ candidate ≤ end_ ∧
    (∀ x, start ≤ x ≤ end_ → x ∈ off_set) ∧
    (start - 1 ∉ off_set) ∧ (end_ + 1 ∉ off_set) ∧
    len = days_between end_ start + 1.
Proof.
  intros Hin Hlo Hhi Hlo' Hhi'.
  destruct (get_continuous_block_returns candidate off_set lo hi)
    as (start & end_ & Hblk & _); [done..|].
  exists start, end_, (end_ - start + 1). split; [done|].
  apply get_continuous_block_Ok in Hblk
    as (Hc & Hlen & Hall & Hs & He & _).
  split; [done|]. split; [|done].
  intros x Hx. destruct (decide (x = candidate)) as [->|]; [done|].
  by apply Hall.
Qed.

(** ** The block depends on the set only between two dates that bound
    the walks *)

Lemma expand_backwards_ext fuel1 fuel2 (O1 O2 : gset Z) start prev lo :
  0 ≤ lo ≤ prev → 1 ≤ prev →
  (1 ≤ lo → (lo ∉ O1) ∧ (lo ∉ O2)) →
  (∀ x, lo < x ≤ prev → (x ∈ O1 ↔ x ∈ O2)) →
  expand_backwards fuel1 O1 start prev ≠ OutOfFuel →
  expand_backwards fuel2 O2 start prev ≠ OutOfFuel →
  expand_backwards fuel1 O1 start prev = expand_backwards fuel2 O2 start prev.
Proof.
  revert fuel2 start prev.
  induction fuel1 as [|fuel1 IH]; intros fuel2 start prev Hlo Hprev Hgap Hagree;
    destruct fuel2 as [|fuel2]; simpl;
    (assert (prev ∈ O1 ↔ prev ∈ O2) as [Hiff1 Hiff2]
       by (destruct (decide (prev = lo)) as [->|];
           [destruct Hgap as [Hg1 Hg2]; [lia|split; intros; contradiction]
           | apply Hagree; lia]));
    repeat case_bool_decide; try contradiction;
    try (exfalso; auto; fail); try (intros; congruence).
  assert (lo < prev)
    by (destruct (decide (prev = lo)) as [->|];
        [destruct Hgap; [lia|contradiction]|lia]).
  destruct (date_sub prev 1) as [prev'| |] eqn:Hp; bind_step; try done.
  apply date_sub_Ok in Hp as [-> Hp].
  intros Hf1 Hf2.
  apply IH; [lia | lia | exact Hgap | | exact Hf1 | exact Hf2].
  intros x Hx. apply Hagree. lia.
Qed.

Lemma expand_forwards_ext fuel1 fuel2 (O1 O2 : gset Z) end_ nxt hi :
  nxt ≤ hi ≤ _MAXORDINAL + 1 → nxt ≤ _MAXORDINAL →
  (hi ≤ _MAXORDINAL → (hi ∉ O1) ∧ (hi ∉ O2)) →
  (∀ x, nxt ≤ x < hi → (x ∈ O1 ↔ x ∈ O2)) →
  expand_forwards fuel1 O1 end_ nxt ≠ OutOfFuel →
  expand_forwards fuel2 O2 end_ nxt ≠ OutOfFuel →
  expand_forwards fuel1 O1 end_ nxt = expand_forwards fuel2 O2 end_ nxt.
Proof.
  revert fuel2 end_ nxt.
  induction fuel1 as [|fuel1 IH]; intros fuel2 end_ nxt Hhi Hnxt Hgap Hagree;
    destruct fuel2 as [|fuel2]; simpl;
    (assert (nxt ∈ O1 ↔ nxt ∈ O2) as [Hiff1 Hiff2]
       by (destruct (decide (nxt = hi)) as [->|];
           [destruct Hgap as [Hg1 Hg2]; [lia|split; intros; contradiction]
           | apply Hagree; lia]));
    repeat case_bool_decide; try contradiction;
    try (exfalso; auto; fail); try (intros; congruence).
  assert (nxt < hi)
    by (destruct (decide (nxt = hi)) as [->|];
        [destruct Hgap; [lia|contradiction]|lia]).
  destruct (date_add nxt 1) as [nxt'| |] eqn:Hp; bind_step; try done.
  apply date_add_Ok in Hp as [-> Hp].
  intros Hf1 Hf2.
  apply IH; [lia | lia | exact Hgap | | exact Hf1 | exact Hf2].
  intros x Hx. apply Hagree. lia.
Qed.

Theorem get_continuous_block_ext candidate (O1 O2 : gset Z) lo hi :
  0 ≤ lo < candidate → candidate < hi ≤ _MAXORDINAL + 1 →
  (1 ≤ lo → (lo ∉ O1) ∧ (lo ∉ O2)) →
  (hi ≤ _MAXORDINAL → (hi ∉ O1) ∧ (hi ∉ O2)) →
  (∀ x, lo < x < hi → (x ∈ O1 ↔ x ∈ O2)) →
  get_continuous_block candidate O1 = get_continuous_block candidate O2.
Proof.
  intros Hlo Hhi Hglo Hghi Hagree. unfold get_continuous_block.
  destruct (date_sub candidate 1) as [prev| |] eqn:Hp; bind_step;
    [|done|done].
  apply date_sub_Ok in Hp as [-> Hp].
  rewrite (expand_backwards_ext (S (size O1)) (S (size O2)) O1 O2
             candidate (candidate - 1) lo);
    [ | lia | lia | exact Hglo
      | intros x Hx; apply Hagree; lia
      | apply (expand_backwards_fuel _ O1); [lia|auto]
      | apply (expand_backwards_fuel _ O2); [lia|auto] ].
  destruct (expand_backwards (S (size O2)) O2 candidate (candidate - 1))
    as [start| |]; bind_step; [|done|done].
  destruct (date_add candidate 1) as [nxt| |] eqn:Hn; bind_step;
    [|done|done].
  apply date_add_Ok in Hn as [-> Hn].
  rewrite (expand_forwards_ext (S (size O1)) (S (size O2)) O1 O2
             candidate (candidate + 1) hi);
    [ reflexivity | lia | lia | exact Hghi
      | intros x Hx; apply Hagree; lia
      | apply (expand_forwards_fuel _ O1); [lia|auto]
      | apply (expand_forwards_fuel _ O2); [lia|auto] ].
Qed.

End block_resolver.

(** * The off-day set builder *)

Section off_day_builder.
Import holiday_planner.

Lemma elem_of_add_non_working (working_days : list Z) dates
    (holidays : gset Z) x :
  x ∈ foldl (λ (off_days : gset Z) d,
               if negb (bool_decide (weekday d ∈ working_days))
               then {[d]} ∪ off_days else off_days) holidays dates
  ↔ (x ∈ holidays ∨ (x ∈ dates ∧ weekday x ∉ working_days)).
Proof.
  revert holidays.
  induction dates as [|d dates IH]; intros holidays; simpl.
  - rewrite elem_of_nil. tauto.
  - rewrite IH, elem_of_cons. case_bool_decide; simpl.
    + intuition (subst; tauto).
    + rewrite elem_of_union, elem_of_singleton. intuition (subst; tauto).
Qed.

(** The off days are the holidays, whatever their year, and the dates of
    the year that fall on a weekday that is not worked. *)
Lemma compute_off_days_Ok year holidays working_days off_days :
  compute_off_days year holidays working_days = Ok off_days →
  MINYEAR ≤ year < MAXYEAR ∧
  ∀ x, x ∈ off_days ↔
       (x ∈ holidays ∨
        (year_start year ≤ x ≤ year_end year ∧ weekday x ∉ working_days)).
Proof.
  unfold compute_off_days. intros H.
  apply result_bind_Ok in H as (dates & Hd & H).
  apply generate_year_dates_Ok in Hd as [Hy ->].
  injection H as <-. split; [done|]. intros x.
  by rewrite elem_of_add_non_working, elem_of_year.
Qed.

Lemma compute_off_days_returns year holidays working_days :
  MINYEAR ≤ year < MAXYEAR →
  ∃ off_days, compute_off_days year holidays working_days = Ok off_days.
Proof.
  intros Hy. unfold compute_off_days.
  rewrite generate_year_dates_spec by done. bind_step. eauto.
Qed.

Lemma compute_off_days_add year holidays working_days h :
  compute_off_days year ({[h]} ∪ holidays) working_days
  = (λ off_days : gset Z, {[h]} ∪ off_days)
      <$> compute_off_days year holidays working_days.
Proof.
  unfold compute_off_days.
  destruct (generate_year_dates year) as [dates| |]; [|done|done].
  bind_step. cbn [fmap result_fmap]. f_equal.
  apply set_eq. intros x.
  rewrite elem_of_union, !elem_of_add_non_working, elem_of_union.
  tauto.
Qed.

(** What [include_sundays] adds in [sample.py]: the Sundays of the year. *)
Lemma elem_of_add_sundays dates (holidays : gset Z) x :
  x ∈ foldl (λ (off_days : gset Z) d,
               if bool_decide (weekday d = 6)
               then {[d]} ∪ off_days else off_days) holidays dates
  ↔ (x ∈ holidays ∨ (x ∈ dates ∧ weekday x = 6)).
Proof.
  revert holidays.
  induction dates as [|d dates IH]; intros holidays; simpl.
  - rewrite elem_of_nil. tauto.
  - rewrite IH, elem_of_cons. case_bool_decide; simpl.
    + rewrite elem_of_union, elem_of_singleton. intuition (subst; tauto).
    + intuition (subst; tauto).
Qed.

Lemma sample_compute_off_days_sundays year holidays working_days off_days :
  sample.compute_off_days year holidays working_days true = Ok off_days →
  ∀ x, x ∈ off_days ↔
       (x ∈ holidays ∨
        (year_start year ≤ x ≤ year_end year ∧
         (weekday x = 6 ∨ weekday x ∉ working_days))).
Proof.
  unfold sample.compute_off_days.
  change (sample.generate_year_dates year) with (generate_year_dates year).
  intros H. apply result_bind_Ok in H as (dates & Hd & H).
  apply generate_year_dates_Ok in Hd as [Hy ->].
  injection H as <-. intros x.
  rewrite elem_of_add_non_working, elem_of_add_sundays, elem_of_year.
  tauto.
Qed.

End off_day_builder.

(** * The leave suggestion scanner *)

Section for_each_facts.
Context {A S : Type}.
Implicit Types (body : S → A → result S) (l : list A).

Lemma for_each_invariant (I : S → Prop) body l s r :
  (∀ s x s', x ∈ l → I s → body s x = Ok s' → I s') →
  I s → for_each body s l = Ok r → I r.
Proof.
  revert s. induction l as [|x l IH]; intros s Hbody Hs; simpl.
  - by intros [= <-].
  - intros H. apply result_bind_Ok in H as (s' & Hx & H).
    apply (IH s'); [|by eapply Hbody; [left|..]|done].
    intros ??? Hin. apply Hbody. by right.
Qed.

Lemma for_each_ext body1 body2 l s :
  (∀ s x, x ∈ l → body1 s x = body2 s x) →
  for_each body1 s l = for_each body2 s l.
Proof.
  revert s. induction l as [|x l IH]; intros s Hbody; simpl; [done|].
  rewrite Hbody by left. destruct (body2 s x); bind_step; [|done|done].
  apply IH. intros ?? Hin. apply Hbody. by right.
Qed.

Lemma for_each_returns (I : S → Prop) body l s :
  (∀ s x, x ∈ l → I s → ∃ s', body s x = Ok s' ∧ I s') →
  I s → ∃ r, for_each body s l = Ok r ∧ I r.
Proof.
  revert s. induction l as [|x l IH]; intros s Hbody Hs; simpl; [eauto|].
  destruct (Hbody s x) as (s' & -> & Hs'); [by left|done|]. bind_step.
  apply IH; [|done]. intros ?? Hin. apply Hbody. by right.
Qed.

Lemma for_each_not_OutOfFuel body l s :
  (∀ s x, body s x ≠ OutOfFuel) → for_each body s l ≠ OutOfFuel.
Proof.
  intros Hbody. revert s. induction l as [|x l IH]; intros s; simpl; [done|].
  specialize (Hbody s x). destruct (body s x); bind_step; done.
Qed.
End for_each_facts.

Section scanner_steps.
Import holiday_planner.

Implicit Types (off_days : gset Z) (working_days : list Z).

Lemma neighbour_off_Ok d off_days b :
  neighbour_off d off_days = Ok b →
  valid_date (d - 1) ∧
  (b = true ↔ (d - 1 ∈ off_days ∨ d + 1 ∈ off_days)).
Proof.
  unfold neighbour_off, valid_date. intros H.
  apply result_bind_Ok in H as (p & Hp & H).
  apply date_sub_Ok in Hp as [-> Hp]. split; [lia|].
  case_bool_decide as Hin.
  - injection H as <-. tauto.
  - apply result_bind_Ok in H as (n & Hn & H).
    apply date_add_Ok in Hn as [-> Hn]. injection H as <-.
    rewrite bool_decide_eq_true. tauto.
Qed.

Lemma neighbour_off_returns d off_days :
  valid_date (d - 1) → valid_date (d + 1) →
  ∃ b, neighbour_off d off_days = Ok b.
Proof.
  unfold neighbour_off, valid_date. intros Hp Hn.
  rewrite date_sub_in_range by lia. bind_step.
  case_bool_decide; [eauto|].
  rewrite date_add_in_range by lia. bind_step. eauto.
Qed.

Lemma neighbour_off_not_OutOfFuel d off_days :
  neighbour_off d off_days ≠ OutOfFuel.
Proof.
  unfold neighbour_off.
  destruct (date_sub d 1) eqn:Hp; bind_step;
    [|done|by apply date_sub_not_OutOfFuel in Hp].
  case_bool_decide; [done|].
  destruct (date_add d 1) eqn:Hn; bind_step;
    [done|done|by apply date_add_not_OutOfFuel in Hn].
Qed.

(** One iteration either leaves the list as it is or appends the record
    of a candidate that passed every test. *)
Lemma scan_day_Ok off_days working_days threshold suggestions d r :
  scan_day off_days working_days threshold suggestions d = Ok r →
  r = suggestions ∨
  ∃ start end_ len,
    r = suggestions ++ [Suggestion d start end_ len] ∧
    weekday d ∈ working_days ∧ (d ∉ off_days) ∧
    (d - 1 ∈ off_days ∨ d + 1 ∈ off_days) ∧
    get_continuous_block d ({[d]} ∪ off_days) = Ok (start, end_, len) ∧
    threshold ≤ len.
Proof.
  unfold scan_day. intros H.
  destruct (bool_decide (weekday d ∈ working_days)) eqn:Hw; simpl in H;
    [|left; congruence].
  destruct (bool_decide (d ∈ off_days)) eqn:Ho; simpl in H;
    [left; congruence|].
  apply bool_decide_eq_true in Hw. apply bool_decide_eq_false in Ho.
  apply result_bind_Ok in H as (near & Hnear & H).
  apply neighbour_off_Ok in Hnear as [_ Hnear].
  destruct near; [|left; congruence].
  apply result_bind_Ok in H as ([[start end_] len] & Hblk & H).
  case_bool_decide; [|left; congruence].
  right. exists start, end_, len. injection H as <-.
  repeat split; try done. by apply Hnear.
Qed.

Lemma scan_day_not_OutOfFuel off_days working_days threshold suggestions d :
  scan_day off_days working_days threshold suggestions d ≠ OutOfFuel.
Proof.
  unfold scan_day.
  destruct (bool_decide (weekday d ∈ working_days)
            && negb (bool_decide (d ∈ off_days))); [|done].
  pose proof (neighbour_off_not_OutOfFuel d off_days) as Hn.
  destruct (neighbour_off d off_days) as [[]| |]; bind_step; try done.
  pose proof (get_continuous_block_not_OutOfFuel d ({[d]} ∪ off_days)) as Hb.
  destruct (get_continuous_block d ({[d]} ∪ off_days)) as [[[??]?]| |];
    bind_step; try done.
  by case_bool_decide.
Qed.

(** The model never runs out of fuel: every loop of the scan terminates. *)
Lemma find_leave_suggestions_not_OutOfFuel year off_days working_days
    threshold :
  find_leave_suggestions year off_days working_days threshold ≠ OutOfFuel.
Proof.
  unfold find_leave_suggestions.
  pose proof (generate_year_dates_not_OutOfFuel year) as Hg.
  destruct (generate_year_dates year) as [dates| |]; bind_step; try done.
  apply for_each_not_OutOfFuel. intros. apply scan_day_not_OutOfFuel.
Qed.

End scanner_steps.

Section scanner_properties.
Import holiday_planner.

Implicit Types (off_days : gset Z) (working_days : list Z).

(** Soundness of the scan: every record is that of a candidate which
    passed the tests of the loop body on the off-day set it was given. *)
Lemma find_leave_suggestions_genuine year off_days working_days threshold l :
  find_leave_suggestions year off_days working_days threshold = Ok l →
  Forall (genuine_suggestion year off_days working_days threshold) l.
Proof.
  unfold find_leave_suggestions. intros H.
  apply result_bind_Ok in H as (dates & Hd & H).
  apply generate_year_dates_Ok in Hd as [Hy ->].
  revert H. apply for_each_invariant; [|by constructor].
  intros acc d acc' Hd Hacc Hscan.
  apply elem_of_year in Hd.
  apply scan_day_Ok in Hscan
    as [->|(start & end_ & len & -> & Hw & Ho & Hn & Hb & Ht)]; [done|].
  apply Forall_app. split; [done|].
  apply Forall_singleton. unfold genuine_suggestion. simpl.
  split; [lia|]. auto.
Qed.

(** Away from the first and the last year, and with neither the first nor
    the last date in the off-day set, the scan returns a list, whatever
    the working days and the threshold. *)
Lemma find_leave_suggestions_returns year off_days working_days threshold :
  MINYEAR < year < MAXYEAR →
  1 ∉ off_days → _MAXORDINAL ∉ off_days →
  ∃ l, find_leave_suggestions year off_days working_days threshold = Ok l.
Proof.
  intros Hy Hmin Hmax. unfold find_leave_suggestions.
  rewrite generate_year_dates_spec by lia. bind_step.
  destruct (for_each_returns (λ _, True)
              (scan_day off_days working_days threshold)
              (seqZ (year_start year) (days_in_year year)) [])
    as (l & Hl & _); [|done|by exists l].
  intros acc d Hd _. apply elem_of_year in Hd.
  pose proof (year_start_above_min year ltac:(lia)).
  pose proof (year_end_below_max year ltac:(lia)).
  pose proof (days_in_year_cases (year - 1)).
  pose proof (days_in_year_cases (year + 1)).
  unfold scan_day.
  destruct (bool_decide (weekday d ∈ working_days)
            && negb (bool_decide (d ∈ off_days))); [|eauto].
  destruct (neighbour_off_returns d off_days) as [near ->];
    [unfold valid_date; lia..|]. bind_step.
  destruct near; [|eauto].
  destruct (get_continuous_block_returns d ({[d]} ∪ off_days) 1 _MAXORDINAL)
    as (start & end_ & -> & _); [lia|lia| | |].
  - rewrite elem_of_union, elem_of_singleton. intros [?|?]; [lia|done].
  - rewrite elem_of_union, elem_of_singleton. intros [?|?]; [lia|done].
  - bind_step. case_bool_decide; eauto.
Qed.

(** With no working day no date passes the first test. *)
Lemma find_leave_suggestions_no_working_days year off_days threshold :
  MINYEAR ≤ year < MAXYEAR →
  find_leave_suggestions year off_days [] threshold = Ok [].
Proof.
  intros Hy. unfold find_leave_suggestions.
  rewrite generate_year_dates_spec by lia. bind_step.
  generalize (seqZ (year_start year) (days_in_year year)).
  intros dates. induction dates as [|d dates IH]; cbn [for_each]; [done|].
  assert (scan_day off_days [] threshold [] d = Ok []) as ->; [|done].
  unfold scan_day.
  by rewrite (bool_decide_eq_false_2 (weekday d ∈ []))
    by apply not_elem_of_nil.
Qed.

(** ** Raising the threshold filters the output *)

Lemma scan_day_threshold off_days working_days t t' suggestions d :
  t ≤ t' →
  scan_day off_days working_days t'
    (filter (λ s, t' ≤ block_length s) suggestions) d
  = filter (λ s, t' ≤ block_length s)
      <$> scan_day off_days working_days t suggestions d.
Proof.
  intros Ht. unfold scan_day.
  destruct (bool_decide (weekday d ∈ working_days)
            && negb (bool_decide (d ∈ off_days))); [|done].
  destruct (neighbour_off d off_days) as [[]| |]; bind_step; try done.
  destruct (get_continuous_block d ({[d]} ∪ off_days))
    as [[[start end_] len]| |]; bind_step; try done.
  cbn [fmap result_fmap].
  repeat case_bool_decide; cbn [fmap result_fmap]; try lia.
  - rewrite filter_app, filter_cons_True by done. done.
  - rewrite filter_app, filter_cons_False by (simpl; lia).
    by rewrite filter_nil, app_nil_r.
  - done.
Qed.

Lemma find_leave_suggestions_threshold year off_days working_days t t' :
  t ≤ t' →
  find_leave_suggestions year off_days working_days t'
  = filter (λ s, t' ≤ block_length s)
      <$> find_leave_suggestions year off_days working_days t.
Proof.
  intros Ht. unfold find_leave_suggestions.
  destruct (generate_year_dates year) as [dates| |]; bind_step; try done.
  change (@nil suggestion) with (filter (λ s, t' ≤ block_length s) []) at 1.
  generalize (@nil suggestion).
  induction dates as [|d dates IH]; intros acc; simpl; [done|].
  rewrite (scan_day_threshold _ _ t) by done.
  destruct (scan_day off_days working_days t acc d);
    cbn [fmap result_fmap mbind result_bind]; [apply IH|done|done].
Qed.

End scanner_properties.

(** ** The output in full *)

Section scanner_output.
Import holiday_planner.

Implicit Types (off_days : gset Z) (working_days : list Z).

(** An iteration appends to the list it is given what it would append to
    the empty list. *)
Lemma scan_day_app off_days working_days threshold suggestions d :
  scan_day off_days working_days threshold suggestions d
  = (λ l, suggestions ++ l)
      <$> scan_day off_days working_days threshold [] d.
Proof.
  unfold scan_day.
  destruct (bool_decide (weekday d ∈ working_days)
            && negb (bool_decide (d ∈ off_days)));
    cbn [fmap result_fmap]; [|by rewrite app_nil_r].
  destruct (neighbour_off d off_days) as [[]| |]; bind_step;
    cbn [fmap result_fmap]; try done; [|by rewrite app_nil_r].
  destruct (get_continuous_block d ({[d]} ∪ off_days))
    as [[[start end_] len]| |]; bind_step; cbn [fmap result_fmap];
    try done.
  case_bool_decide; cbn [fmap result_fmap]; [done|by rewrite app_nil_r].
Qed.

Lemma for_each_scan_day_Ok off_days working_days threshold dates
    suggestions l :
  for_each (scan_day off_days working_days threshold) suggestions dates
  = Ok l →
  ∃ ls,
    l = suggestions ++ concat ls ∧
    Forall2 (λ d r, scan_day off_days working_days threshold [] d = Ok r)
      dates ls.
Proof.
  revert suggestions.
  induction dates as [|d dates IH]; intros suggestions; simpl.
  - intros [= <-]. exists []. by rewrite app_nil_r.
  - intros H. apply result_bind_Ok in H as (acc & Hd & H).
    rewrite scan_day_app in Hd.
    destruct (scan_day off_days working_days threshold [] d) as [r| |] eqn:Hr;
      cbn [fmap result_fmap] in Hd; try done.
    injection Hd as <-.
    destruct (IH _ H) as (ls & -> & Hls).
    exists (r :: ls). simpl. rewrite app_assoc. split; [done|].
    by constructor.
Qed.

(** The output in full: going through the dates of the year in order, a
    date contributes its record when it is a working day that is not off,
    has a neighbour that is off, and the block it would join reaches the
    threshold; it contributes nothing otherwise. *)
Theorem find_leave_suggestions_output year off_days working_days threshold l :
  find_leave_suggestions year off_days working_days threshold = Ok l →
  ∃ ls,
    l = concat ls ∧
    Forall2 (λ d r,
               r = [] ∨
               ∃ start end_ len,
                 r = [Suggestion d start end_ len] ∧
                 weekday d ∈ working_days ∧ (d ∉ off_days) ∧
                 (d - 1 ∈ off_days ∨ d + 1 ∈ off_days) ∧
                 get_continuous_block d ({[d]} ∪ off_days)
                 = Ok (start, end_, len) ∧
                 threshold ≤ len)
      (seqZ (year_start year) (days_in_year year)) ls.
Proof.
  unfold find_leave_suggestions. intros H.
  apply result_bind_Ok in H as (dates & Hd & H).
  apply generate_year_dates_Ok in Hd as [_ ->].
  apply for_each_scan_day_Ok in H as (ls & -> & Hls).
  exists ls. split; [done|].
  eapply Forall2_impl; [exact Hls|]. intros d r Hr.
  apply scan_day_Ok in Hr as [->|(start & end_ & len & -> & ?)]; [by left|].
  right. by exists start, end_, len.
Qed.

(** X10.  The records are in calendar order, at most one for a date. *)
Corollary find_leave_suggestions_ordered year off_days working_days
    threshold l :
  find_leave_suggestions year off_days working_days threshold = Ok l →
  ∀ (i j : nat) s s',
    (i < j)%nat → l !! i = Some s → l !! j = Some s' →
    leave_day s < leave_day s'.
Proof.
  intros H. apply find_leave_suggestions_output in H as (ls & -> & Hls).
  revert Hls. generalize (year_start year) (days_in_year year).
  intros a n. revert a ls.
  assert (∀ m a ls,
    Forall2 (λ d r, r = [] ∨ ∃ start end_ len,
               r = [Suggestion d start end_ len] ∧
               weekday d ∈ working_days ∧ (d ∉ off_days) ∧
               (d - 1 ∈ off_days ∨ d + 1 ∈ off_days) ∧
               get_continuous_block d ({[d]} ∪ off_days)
               = Ok (start, end_, len) ∧ threshold ≤ len)
      (seqZ a (Z.of_nat m)) ls →
    (∀ s, s ∈ concat ls → a ≤ leave_day s) ∧
    ∀ (i j : nat) s s', (i < j)%nat → concat ls !! i = Some s →
      concat ls !! j = Some s' → leave_day s < leave_day s') as Hgen.
  { induction m as [|m IH]; intros a ls Hls.
    - rewrite seqZ_nil in Hls by lia. apply Forall2_nil_inv_l in Hls as ->.
      simpl. split; [intros s Hs; by apply elem_of_nil in Hs|].
      intros i j s s' _ Hi. by rewrite lookup_nil in Hi.
    - rewrite seqZ_cons in Hls by lia.
      apply Forall2_cons_inv_l in Hls as (r & ls' & Hr & Hls & ->).
      replace (Z.pred (Z.of_nat (S m))) with (Z.of_nat m) in Hls by lia.
      destruct (IH _ _ Hls) as [Hlow Hord]. simpl.
      destruct Hr as [->|(start & end_ & len & -> & _)]; simpl.
      + split; [|done]. intros s Hs. specialize (Hlow s Hs). lia.
      + split.
        * intros s Hs. apply elem_of_cons in Hs as [->|Hs]; simpl; [lia|].
          specialize (Hlow s Hs). lia.
        * intros [|i] [|j] s s' Hij Hi Hj; simpl in *; try lia.
          -- injection Hi as <-. simpl.
             assert (s' ∈ concat ls') as Hs'
               by (by eapply list_elem_of_lookup_2).
             specialize (Hlow s' Hs'). lia.
          -- apply (Hord i j); [lia|done..]. }
  intros a ls Hls.
  destruct (decide (0 ≤ n)) as [Hn|Hn].
  - apply (Hgen (Z.to_nat n) a ls). by rewrite Z2Nat.id by done.
  - rewrite seqZ_nil in Hls by lia. apply Forall2_nil_inv_l in Hls as ->.
    simpl. intros i j s s' _ Hi. by rewrite lookup_nil in Hi.
Qed.

End scanner_output.

(** * Holidays outside the target year *)

Section out_of_year.
Import holiday_planner.

Implicit Types (off_days : gset Z) (working_days : list Z).

Lemma neighbour_off_ext d (O1 O2 : gset Z) :
  (valid_date (d - 1) → (d - 1 ∈ O1 ↔ d - 1 ∈ O2)) →
  (valid_date (d + 1) → (d + 1 ∈ O1 ↔ d + 1 ∈ O2)) →
  neighbour_off d O1 = neighbour_off d O2.
Proof.
  intros Hp Hn. unfold neighbour_off, valid_date in *.
  destruct (date_sub d 1) as [p| |] eqn:Hsub; bind_step; [|done|done].
  apply date_sub_Ok in Hsub as [-> Hsub].
  rewrite (bool_decide_ext _ _ (Hp ltac:(lia))).
  case_bool_decide; [done|].
  destruct (date_add d 1) as [n| |] eqn:Hadd; bind_step; [|done|done].
  apply date_add_Ok in Hadd as [-> Hadd].
  by rewrite (bool_decide_ext _ _ (Hn ltac:(lia))).
Qed.

(** An iteration looks at the set only between two dates that are not
    in it (or beyond the range of [datetime.date]). *)
Lemma scan_day_ext (O1 O2 : gset Z) working_days threshold suggestions
    d lo hi :
  0 ≤ lo < d → d < hi ≤ _MAXORDINAL + 1 →
  (1 ≤ lo → (lo ∉ O1) ∧ (lo ∉ O2)) →
  (hi ≤ _MAXORDINAL → (hi ∉ O1) ∧ (hi ∉ O2)) →
  (∀ x, lo < x < hi → (x ∈ O1 ↔ x ∈ O2)) →
  scan_day O1 working_days threshold suggestions d
  = scan_day O2 working_days threshold suggestions d.
Proof.
  intros Hlo Hhi Hglo Hghi Hagree. unfold scan_day.
  rewrite (bool_decide_ext (d ∈ O1) (d ∈ O2)) by (apply Hagree; lia).
  rewrite (neighbour_off_ext d O1 O2).
  - rewrite (get_continuous_block_ext d ({[d]} ∪ O1) ({[d]} ∪ O2) lo hi);
      [done|lia|lia|..].
    + intros Hl. destruct (Hglo Hl) as [H1 H2].
      rewrite !elem_of_union, !elem_of_singleton.
      split; intros [?|?]; solve [lia|contradiction].
    + intros Hh. destruct (Hghi Hh) as [H1 H2].
      rewrite !elem_of_union, !elem_of_singleton.
      split; intros [?|?]; solve [lia|contradiction].
    + intros x Hx. rewrite !elem_of_union. rewrite (Hagree x Hx). done.
  - unfold valid_date. intros Hv.
    destruct (decide (d - 1 = lo)) as [Heq|Hne].
    + rewrite Heq. destruct Hglo as [H1 H2]; [lia|].
      split; intros; contradiction.
    + apply Hagree. lia.
  - unfold valid_date. intros Hv.
    destruct (decide (d + 1 = hi)) as [Heq|Hne].
    + rewrite Heq. destruct Hghi as [H1 H2]; [lia|].
      split; intros; contradiction.
    + apply Hagree. lia.
Qed.

Lemma scan_day_add_separated year holidays working_days threshold h
    off_days suggestions d :
  compute_off_days year holidays working_days = Ok off_days →
  separated year holidays h →
  year_start year ≤ d ≤ year_end year →
  scan_day ({[h]} ∪ off_days) working_days threshold suggestions d
  = scan_day off_days working_days threshold suggestions d.
Proof.
  intros Hoff (g & Hg & Hsep) Hd.
  apply compute_off_days_Ok in Hoff as [Hy Hoff].
  pose proof (year_start_valid year ltac:(lia)) as Hs.
  pose proof (year_end_valid year ltac:(lia)) as He.
  assert (g ∉ off_days) as Hg'.
  { rewrite Hoff. intros [?|[? _]]; [done|lia]. }
  destruct Hsep as [[Hhg Hgy]|[Hyg Hgh]].
  - apply (scan_day_ext _ _ _ _ _ _ (Z.max g 0) (_MAXORDINAL + 1));
      [lia|lia| |lia|].
    + intros Hl. replace (Z.max g 0) with g by lia.
      rewrite elem_of_union, elem_of_singleton.
      split; [intros [?|?]; [lia|done] | done].
    + intros x Hx. rewrite elem_of_union, elem_of_singleton.
      split; [intros [?|?]; [lia|done] | by right].
  - apply (scan_day_ext _ _ _ _ _ _ 0 (Z.min g (_MAXORDINAL + 1)));
      [lia|lia|lia| |].
    + intros Hl. replace (Z.min g (_MAXORDINAL + 1)) with g by lia.
      rewrite elem_of_union, elem_of_singleton.
      split; [intros [?|?]; [lia|done] | done].
    + intros x Hx. rewrite elem_of_union, elem_of_singleton.
      split; [intros [?|?]; [lia|done] | by right].
Qed.

Lemma main_suggestions_add year holidays working_days threshold h :
  separated year holidays h →
  main_suggestions year ({[h]} ∪ holidays) working_days threshold
  = main_suggestions year holidays working_days threshold.
Proof.
  intros Hsep. unfold main_suggestions. rewrite compute_off_days_add.
  destruct (compute_off_days year holidays working_days)
    as [off_days| |] eqn:Hoff; cbn [fmap result_fmap]; bind_step;
    [|done|done].
  unfold find_leave_suggestions.
  destruct (generate_year_dates year) as [dates| |] eqn:Hd; bind_step;
    [|done|done].
  apply generate_year_dates_Ok in Hd as [Hy ->].
  apply for_each_ext. intros acc d Hin. apply elem_of_year in Hin.
  by apply (scan_day_add_separated year holidays).
Qed.

(** Every suggested leave day is a date of the target year. *)
Lemma main_suggestions_leave_day year (holidays : gset Z) working_days
    threshold l s :
  main_suggestions year holidays working_days threshold = Ok l →
  s ∈ l →
  year_start year ≤ leave_day s ≤ year_end year.
Proof.
  unfold main_suggestions. intros H Hs.
  apply result_bind_Ok in H as (off_days & _ & H).
  apply find_leave_suggestions_genuine in H.
  rewrite Forall_forall in H. by destruct (H s Hs) as [? _].
Qed.

End out_of_year.

(** * The six-day week *)

Section six_days.
Import holiday_planner.

Lemma not_in_six_day_week d : weekday d ∉ six_day_week ↔ weekday d = 6.
Proof.
  pose proof (weekday_range d). unfold six_day_week.
  rewrite !not_elem_of_cons. split; [intros (?&?&?&?&?&?&_); lia|].
  intros ->. repeat split; try lia. apply not_elem_of_nil.
Qed.

(** Two different dates with the same weekday are a week apart. *)
Lemma same_weekday_apart a b : weekday a = weekday b → a < b → a + 7 ≤ b.
Proof. unfold weekday. intros. Z.div_mod_to_equations. lia. Qed.

Lemma six_day_week_off_days year off_days :
  compute_off_days year ∅ six_day_week = Ok off_days →
  ∀ x, x ∈ off_days ↔ year_start year ≤ x ≤ year_end year ∧ weekday x = 6.
Proof.
  intros H x. apply compute_off_days_Ok in H as [_ H].
  rewrite H, not_in_six_day_week, elem_of_empty. tauto.
Qed.

(** Taking the Monday after or the Saturday before a Sunday gives two
    days off in a row, never more. *)
Lemma six_day_week_block year off_days threshold s :
  compute_off_days year ∅ six_day_week = Ok off_days →
  genuine_suggestion year off_days six_day_week threshold s →
  block_length s = 2.
Proof.
  intros Hoff (Hy & Hw & Ho & Hn & Hb & Ht).
  pose proof (six_day_week_off_days _ _ Hoff) as Hin.
  apply get_continuous_block_Ok in Hb
    as (Hc & -> & Hall & Hs & He & _ & _).
  unfold days_between.
  set (d := leave_day s) in *. set (bs := block_start s) in *.
  set (be := block_end s) in *.
  assert (∀ x, x ∈ ({[d]} ∪ off_days : gset Z) → x ≠ d → weekday x = 6)
    as Hsun.
  { intros x Hx Hne. apply elem_of_union in Hx as [Hx|Hx].
    - apply elem_of_singleton in Hx. done.
    - by apply Hin. }
  assert (d - 1 ≤ bs) as Hbs.
  { destruct (decide (d - 1 ≤ bs)); [done|]. exfalso.
    pose proof (Hsun (d - 1) (Hall (d - 1) ltac:(lia) ltac:(lia)) ltac:(lia)).
    pose proof (Hsun (d - 2) (Hall (d - 2) ltac:(lia) ltac:(lia)) ltac:(lia)).
    pose proof (same_weekday_apart (d - 2) (d - 1)). lia. }
  assert (be ≤ d + 1) as Hbe.
  { destruct (decide (be ≤ d + 1)); [done|]. exfalso.
    pose proof (Hsun (d + 1) (Hall (d + 1) ltac:(lia) ltac:(lia)) ltac:(lia)).
    pose proof (Hsun (d + 2) (Hall (d + 2) ltac:(lia) ltac:(lia)) ltac:(lia)).
    pose proof (same_weekday_apart (d + 1) (d + 2)). lia. }
  assert (¬ (bs = d - 1 ∧ be = d + 1)) as Hboth.
  { intros [Hl Hr].
    pose proof (Hsun (d - 1) (Hall (d - 1) ltac:(lia) ltac:(lia)) ltac:(lia)).
    pose proof (Hsun (d + 1) (Hall (d + 1) ltac:(lia) ltac:(lia)) ltac:(lia)).
    pose proof (same_weekday_apart (d - 1) (d + 1)). lia. }
  assert (¬ (bs = d ∧ be = d)) as Hnone.
  { intros [Hl Hr]. rewrite Hl in Hs. rewrite Hr in He.
    destruct Hn as [Hn|Hn]; [apply Hs|apply He];
      apply elem_of_union; by right. }
  lia.
Qed.

Lemma six_day_week_no_adjacent year off_days x :
  compute_off_days year ∅ six_day_week = Ok off_days →
  x ∈ off_days → x + 1 ∉ off_days.
Proof.
  intros Hoff Hx Hx'.
  apply (six_day_week_off_days _ _ Hoff) in Hx as [_ Hx].
  apply (six_day_week_off_days _ _ Hoff) in Hx' as [_ Hx'].
  pose proof (same_weekday_apart x (x + 1)). lia.
Qed.

Lemma six_day_week_scan year off_days threshold :
  MINYEAR < year < MAXYEAR →
  compute_off_days year ∅ six_day_week = Ok off_days →
  ∃ l, find_leave_suggestions year off_days six_day_week threshold = Ok l ∧
       Forall (λ s, block_length s = 2) l ∧
       (2 < threshold → l = []).
Proof.
  intros Hy Hoff.
  pose proof (six_day_week_off_days _ _ Hoff) as Hin.
  pose proof (year_start_above_min year ltac:(lia)).
  pose proof (year_end_below_max year ltac:(lia)).
  pose proof (days_in_year_cases (year - 1)).
  pose proof (days_in_year_cases (year + 1)).
  destruct (find_leave_suggestions_returns year off_days six_day_week
              threshold) as [l Hl]; [lia| | |].
  - rewrite Hin. lia.
  - rewrite Hin. lia.
  - exists l. split; [done|].
    apply find_leave_suggestions_genuine in Hl.
    assert (Forall (λ s, block_length s = 2 ∧ threshold ≤ 2) l) as Hl2.
    { eapply Forall_impl; [exact Hl|]. intros s Hs.
      pose proof (six_day_week_block _ _ _ _ Hoff Hs) as Hlen.
      destruct Hs as (_ & _ & _ & _ & _ & Ht). lia. }
    split.
    + eapply Forall_impl; [exact Hl2|]. by intros s [? _].
    + intros Ht. destruct Hl2 as [|s l' [_ Hs] _]; [done|lia].
Qed.

End six_days.

(** * The scan over set objects: what it computes and what it writes *)

Section set_objects.
Import store.

Implicit Types (h : heap) (r off_days : ref) (working_days : list Z).

Lemma store_expand_backwards fuel r start prev h :
  store.expand_backwards fuel r start prev h
  = (holiday_planner.expand_backwards fuel (contents h r) start prev, h).
Proof.
  revert start prev.
  induction fuel as [|fuel IH]; intros start prev; simpl;
    unfold bind, set_contains, lift, ret; case_bool_decide; try done.
  destruct (date_sub prev 1); bind_step; [apply IH|done|done].
Qed.

Lemma store_expand_forwards fuel r end_ nxt h :
  store.expand_forwards fuel r end_ nxt h
  = (holiday_planner.expand_forwards fuel (contents h r) end_ nxt, h).
Proof.
  revert end_ nxt.
  induction fuel as [|fuel IH]; intros end_ nxt; simpl;
    unfold bind, set_contains, lift, ret; case_bool_decide; try done.
  destruct (date_add nxt 1); bind_step; [apply IH|done|done].
Qed.

(** The resolver only reads the set object it is given. *)
Lemma store_get_continuous_block candidate r h :
  store.get_continuous_block candidate r h
  = (holiday_planner.get_continuous_block candidate (contents h r), h).
Proof.
  unfold store.get_continuous_block, holiday_planner.get_continuous_block,
    bind, set_size, lift, ret.
  destruct (date_sub candidate 1) as [prev| |]; bind_step; [|done|done].
  rewrite store_expand_backwards.
  destruct (holiday_planner.expand_backwards (S (size (contents h r)))
              (contents h r) candidate prev); bind_step; [|done|done].
  destruct (date_add candidate 1) as [nxt| |]; bind_step; [|done|done].
  rewrite store_expand_forwards.
  destruct (holiday_planner.expand_forwards (S (size (contents h r)))
              (contents h r) candidate nxt); bind_step; done.
Qed.

Lemma store_neighbour_off d r h :
  store.neighbour_off d r h
  = (holiday_planner.neighbour_off d (contents h r), h).
Proof.
  unfold store.neighbour_off, holiday_planner.neighbour_off,
    bind, set_contains, lift, ret.
  destruct (date_sub d 1) as [p| |]; bind_step; [|done|done].
  case_bool_decide; [done|].
  destruct (date_add d 1) as [n| |]; bind_step; done.
Qed.

Lemma contents_lookup h r (O : gset Z) : h !! r = Some O → contents h r = O.
Proof. unfold contents. by intros ->. Qed.

(** An iteration returns what the scan over set values returns; it
    leaves every object of the store as it was and allocates at most one
    new object, the copy of the off-day set with the candidate added. *)
Lemma store_scan_day off_days working_days threshold suggestions d h
    (O : gset Z) :
  h !! off_days = Some O →
  ∃ ds,
    store.scan_day off_days working_days threshold suggestions d h
    = (holiday_planner.scan_day O working_days threshold suggestions d,
       h ++ ((λ d, {[d]} ∪ O) <$> ds)) ∧
    (ds = [] ∨ (ds = [d] ∧ (d ∉ O) ∧ weekday d ∈ working_days)).
Proof.
  intros Hr. pose proof (contents_lookup _ _ _ Hr) as Hc.
  unfold store.scan_day, holiday_planner.scan_day.
  case_bool_decide as Hw; cbn [andb];
    [|exists []; by rewrite app_nil_r; auto].
  unfold bind at 1. unfold set_contains at 1. rewrite Hc.
  case_bool_decide as Ho; cbn [negb];
    [exists []; by rewrite app_nil_r; auto|].
  unfold bind at 1. rewrite store_neighbour_off, Hc.
  destruct (holiday_planner.neighbour_off d O) as [[]| |]; bind_step;
    try (exists []; by rewrite app_nil_r; auto).
  exists [d]. split; [|by right].
  unfold bind, set_copy, set_add. rewrite Hc.
  rewrite alter_app_r_alt by done. rewrite Nat.sub_diag. cbn [alter list_alter].
  rewrite store_get_continuous_block.
  assert (contents (h ++ [{[d]} ∪ O]) (length h) = {[d]} ∪ O) as ->.
  { unfold contents. by rewrite list_lookup_middle. }
  destruct (holiday_planner.get_continuous_block d ({[d]} ∪ O))
    as [[[start end_] len]| |]; bind_step; try done.
  by case_bool_decide.
Qed.

Lemma store_for_each off_days working_days threshold dates suggestions h
    (O : gset Z) :
  h !! off_days = Some O →
  ∃ ds,
    for_each_state (store.scan_day off_days working_days threshold)
      suggestions dates h
    = (for_each (holiday_planner.scan_day O working_days threshold)
         suggestions dates,
       h ++ ((λ d, {[d]} ∪ O) <$> ds)) ∧
    Forall (λ d, d ∈ dates ∧ (d ∉ O) ∧ weekday d ∈ working_days) ds.
Proof.
  revert suggestions h.
  induction dates as [|d dates IH]; intros suggestions h Hr; simpl.
  - exists []. by rewrite app_nil_r.
  - destruct (store_scan_day off_days working_days threshold suggestions d
                h O Hr) as (ds1 & Hscan & Hds1).
    unfold bind at 1. rewrite Hscan.
    assert (Forall (λ x, x ∈ d :: dates ∧ (x ∉ O) ∧ weekday x ∈ working_days)
              ds1) as Hall1.
    { destruct Hds1 as [->|(-> & ? & ?)]; [by constructor|].
      apply Forall_singleton. split; [by left|done]. }
    destruct (holiday_planner.scan_day O working_days threshold
                suggestions d) as [acc| |]; bind_step;
      [|by exists ds1..].
    destruct (IH acc (h ++ ((λ d, {[d]} ∪ O) <$> ds1)))
      as (ds2 & Hrest & Hds2); [by apply lookup_app_l_Some|].
    exists (ds1 ++ ds2). rewrite Hrest, fmap_app, app_assoc.
    split; [done|]. apply Forall_app. split; [done|].
    eapply Forall_impl; [exact Hds2|]. intros x (? & ? & ?).
    split; [by right|done].
Qed.

End set_objects.

Section set_object_copies.
Import store.

Implicit Types (h : list (gset Z)) (working_days : list Z).

(** An iteration makes a copy exactly when its date is a candidate, unless
    it raises before the copy, in the test of the neighbours. *)
Lemma store_scan_day_candidates (off_days : nat) working_days threshold
    suggestions d h (O : gset Z) :
  h !! off_days = Some O →
  ∃ ds,
    store.scan_day off_days working_days threshold suggestions d h
    = (holiday_planner.scan_day O working_days threshold suggestions d,
       h ++ ((λ d, {[d]} ∪ O) <$> ds)) ∧
    (ds = candidates O working_days [d] ∨
     (ds = [] ∧
      ∀ r, holiday_planner.scan_day O working_days threshold suggestions d
           ≠ Ok r)).
Proof.
  intros Hr. pose proof (contents_lookup _ _ _ Hr) as Hc.
  unfold store.scan_day, holiday_planner.scan_day, candidates.
  case_bool_decide as Hw; cbn [andb].
  2: { exists []. rewrite app_nil_r. split; [done|]. left.
       rewrite filter_cons_False; [done|]. tauto. }
  unfold bind at 1. unfold set_contains at 1. rewrite Hc.
  case_bool_decide as Ho; cbn [negb].
  { exists []. rewrite app_nil_r. split; [done|]. left.
    rewrite filter_cons_False; [done|]. tauto. }
  unfold bind at 1. rewrite store_neighbour_off, Hc.
  destruct (holiday_planner.neighbour_off d O) as [near|e|] eqn:Hnear;
    bind_step.
  - apply neighbour_off_Ok in Hnear as [_ Hnear]. destruct near.
    + exists [d]. split.
      * unfold bind, set_copy, set_add. rewrite Hc.
        rewrite alter_app_r_alt by done. rewrite Nat.sub_diag.
        cbn [alter list_alter]. rewrite store_get_continuous_block.
        assert (contents (h ++ [{[d]} ∪ O]) (length h) = {[d]} ∪ O) as ->.
        { unfold contents. by rewrite list_lookup_middle. }
        destruct (holiday_planner.get_continuous_block d ({[d]} ∪ O))
          as [[[start end_] len]| |]; bind_step; try done.
        by case_bool_decide.
      * left. rewrite filter_cons_True; [done|].
        split; [done|]. split; [done|]. by apply Hnear.
    + exists []. rewrite app_nil_r. split; [done|]. left.
      rewrite filter_cons_False; [done|].
      intros (_ & _ & Hn). apply Hnear in Hn. discriminate.
  - exists []. rewrite app_nil_r. split; [done|]. by right.
  - exists []. rewrite app_nil_r. split; [done|]. by right.
Qed.

(** The loop makes one copy for each candidate among the dates it gets
    through, all of them when it returns. *)
Lemma store_for_each_candidates (off_days : nat) working_days threshold
    dates suggestions h (O : gset Z) :
  h !! off_days = Some O →
  ∃ scanned,
    for_each_state (store.scan_day off_days working_days threshold)
      suggestions dates h
    = (for_each (holiday_planner.scan_day O working_days threshold)
         suggestions dates,
       h ++ ((λ d, {[d]} ∪ O) <$> candidates O working_days scanned)) ∧
    scanned `prefix_of` dates ∧
    (∀ l, for_each (holiday_planner.scan_day O working_days threshold)
            suggestions dates = Ok l →
          scanned = dates).
Proof.
  revert suggestions h.
  induction dates as [|d dates IH]; intros suggestions h Hr; simpl.
  - exists []. rewrite app_nil_r. done.
  - destruct (store_scan_day_candidates off_days working_days threshold
                suggestions d h O Hr) as (ds1 & Hscan & Hds1).
    unfold bind at 1. rewrite Hscan.
    destruct (holiday_planner.scan_day O working_days threshold
                suggestions d) as [acc|e|] eqn:Hd; bind_step.
    + destruct Hds1 as [->|[_ Hno]]; [|by destruct (Hno acc)].
      destruct (IH acc (h ++ ((λ d, {[d]} ∪ O)
                               <$> candidates O working_days [d])))
        as (scanned & Hrest & Hpre & Hall); [by apply lookup_app_l_Some|].
      exists (d :: scanned). rewrite Hrest. split; [|split].
      * f_equal. rewrite <- app_assoc, <- fmap_app. do 2 f_equal.
        unfold candidates.
        change (d :: scanned) with ([d] ++ scanned).
        by rewrite filter_app.
      * by apply prefix_cons.
      * intros l Hl. f_equal. by apply (Hall l).
    + destruct Hds1 as [->|[-> _]].
      * exists [d]. split; [done|]. split; [|done].
        apply prefix_cons, prefix_nil.
      * exists []. split; [done|]. split; [apply prefix_nil|done].
    + destruct Hds1 as [->|[-> _]].
      * exists [d]. split; [done|]. split; [|done].
        apply prefix_cons, prefix_nil.
      * exists []. split; [done|]. split; [apply prefix_nil|done].
Qed.

End set_object_copies.

(** * The properties of the specification *)

Section specification.
Import holiday_planner.

(** The scenario of the specification: in 2023, with Monday to Friday
    worked and Christmas Day (a Monday) as the only holiday, threshold 4
    selects Friday 22 December (block 22-25 December) and Tuesday
    26 December (block 23-26 December). *)
Example scenario_christmas_day_2023 :
  date 2023 12 25 = Ok 738879 ∧ weekday 738879 = 0 ∧
  main_suggestions 2023 {[738879]} monday_to_friday 4
  = Ok [Suggestion 738876 738876 738879 4;
        Suggestion 738880 738877 738880 4].
Proof. split; [reflexivity|]. split; [reflexivity|]. vm_compute. reflexivity. Qed.

(** C1 (the code departs from it).  The resolver is to return the block
    of every anchor that is in the set.  On the set that holds only
    0001-01-01, the first date there is, it raises [OverflowError]
    instead: the day before the anchor is computed before anything is
    tested. *)
Theorem get_continuous_block_at_first_date :
  date 1 1 1 = Ok 1 ∧ 1 ∈ ({[1]} : gset Z) ∧
  get_continuous_block 1 {[1]} = Raise OverflowError.
Proof.
  split; [reflexivity|]. split; [by apply elem_of_singleton|].
  vm_compute. reflexivity.
Qed.

(** C2.  Every record returned by [find_leave_suggestions] has a
    [leave_day] whose weekday is a working day, that is not in the
    off-day set given to the scan, and whose previous or next day is in
    that set. *)
Theorem suggestions_are_genuine_candidates year (off_days : gset Z)
    working_days threshold l s :
  find_leave_suggestions year off_days working_days threshold = Ok l →
  s ∈ l →
  weekday (leave_day s) ∈ working_days ∧
  (leave_day s ∉ off_days) ∧
  (leave_day s - 1 ∈ off_days ∨ leave_day s + 1 ∈ off_days).
Proof.
  intros Hl Hs. apply find_leave_suggestions_genuine in Hl.
  rewrite Forall_forall in Hl.
  destruct (Hl s Hs) as (_ & Hw & Ho & Hn & _). auto.
Qed.

(** C2 (witness): the scan of 2023 over Christmas Day and 27 December with
    threshold 3, whose only record is for Tuesday 26 December. *)
Lemma suggestions_are_genuine_candidates_witness :
  find_leave_suggestions 2023 christmas_2023 monday_to_friday 3
  = Ok [Suggestion 738880 738879 738881 3] ∧
  weekday 738880 ∈ monday_to_friday ∧
  (738880 ∉ christmas_2023) ∧
  (738880 - 1 ∈ christmas_2023 ∨ 738880 + 1 ∈ christmas_2023).
Proof.
  split; [vm_compute; reflexivity|].
  apply (suggestions_are_genuine_candidates 2023 christmas_2023
           monday_to_friday 3 [Suggestion 738880 738879 738881 3]
           (Suggestion 738880 738879 738881 3)).
  - vm_compute. reflexivity.
  - apply list_elem_of_here.
Defined.

(** C3 (counterexample).  With a six-day week and no holiday in 2023,
    Monday 2 January follows a Sunday: the neighbour check succeeds and
    the scan with threshold 2 returns a suggestion for it. *)
Lemma six_day_week_threshold_two :
  (off_days ← compute_off_days 2023 ∅ six_day_week;
   neighbour_off 738522 off_days) = Ok true ∧
  ∃ l, main_suggestions 2023 ∅ six_day_week 2
       = Ok (Suggestion 738522 738521 738522 2 :: l).
Proof.
  split; [vm_compute; reflexivity|].
  eexists. vm_compute. reflexivity.
Qed.

(** C3 (as amended).  For a year from 2 to 9998, a six-day week and no
    holiday: the off days are the Sundays of the year, no two of them are
    adjacent, every suggestion has a block of exactly two days, and so
    the scan returns the empty list for every threshold above 2. *)
Theorem six_day_week_suggestions year :
  MINYEAR < year < MAXYEAR →
  ∃ off_days,
    compute_off_days year ∅ six_day_week = Ok off_days ∧
    (∀ x, x ∈ off_days ↔
          year_start year ≤ x ≤ year_end year ∧ weekday x = 6) ∧
    (∀ x, x ∈ off_days → x + 1 ∉ off_days) ∧
    ∀ threshold, ∃ l,
      find_leave_suggestions year off_days six_day_week threshold = Ok l ∧
      Forall (λ s, block_length s = 2) l ∧
      (2 < threshold → l = []).
Proof.
  intros Hy.
  destruct (compute_off_days_returns year ∅ six_day_week)
    as [off_days Hoff]; [lia|].
  exists off_days. split; [done|].
  split; [by apply six_day_week_off_days|].
  split; [intros x; by apply (six_day_week_no_adjacent year)|].
  intros threshold. by apply six_day_week_scan.
Qed.

(** C3 (witness): the year 2023. *)
Lemma six_day_week_suggestions_witness :
  MINYEAR < 2023 < MAXYEAR ∧
  ∃ off_days,
    compute_off_days 2023 ∅ six_day_week = Ok off_days ∧
    (∀ x, x ∈ off_days ↔
          year_start 2023 ≤ x ≤ year_end 2023 ∧ weekday x = 6) ∧
    (∀ x, x ∈ off_days → x + 1 ∉ off_days) ∧
    ∀ threshold, ∃ l,
      find_leave_suggestions 2023 off_days six_day_week threshold = Ok l ∧
      Forall (λ s, block_length s = 2) l ∧
      (2 < threshold → l = []).
Proof.
  split; [split; reflexivity|].
  apply (six_day_week_suggestions 2023). split; reflexivity.
Defined.

(** C4 (counterexample).  New Year's Day 2024 is outside 2023, yet adding
    it to the holidays changes the output for 2023: Friday 29 December
    then starts a block of four days. *)
Lemma new_year_holiday_changes_output :
  date 2024 1 1 = Ok 738886 ∧
  main_suggestions 2023 ∅ monday_to_friday 4 = Ok [] ∧
  main_suggestions 2023 ({[738886]} ∪ ∅) monday_to_friday 4
  = Ok [Suggestion 738883 738883 738886 4].
Proof. split; [reflexivity|]. split; vm_compute; reflexivity. Qed.

(** C4 (as amended).  A holiday is passed into the off-day set whatever
    its year.  When some date that is not a holiday lies strictly between
    a holiday [h] and the target year, [h] is no leave day of any
    suggestion and adding it leaves the output of the scan unchanged. *)
Theorem separated_holiday_is_benign year (holidays : gset Z) working_days
    threshold h :
  separated year holidays h →
  (∀ off_days,
     compute_off_days year ({[h]} ∪ holidays) working_days = Ok off_days →
     h ∈ off_days) ∧
  (∀ l s,
     main_suggestions year ({[h]} ∪ holidays) working_days threshold = Ok l →
     s ∈ l → leave_day s ≠ h) ∧
  main_suggestions year ({[h]} ∪ holidays) working_days threshold
  = main_suggestions year holidays working_days threshold.
Proof.
  intros Hsep. split; [|split; [|by apply main_suggestions_add]].
  - intros off_days Hoff. apply compute_off_days_Ok in Hoff as [_ Hoff].
    apply Hoff. left. apply elem_of_union. left. by apply elem_of_singleton.
  - intros l s Hl Hs Heq.
    pose proof (main_suggestions_leave_day _ _ _ _ _ _ Hl Hs) as Hin.
    destruct Hsep as (g & _ & [[? ?]|[? ?]]); lia.
Qed.

(** C4 (witness): 2 January 2024 added to the holidays of 2023, with
    1 January 2024 not a holiday. *)
Lemma separated_holiday_is_benign_witness :
  separated 2023 christmas_2023 738887 ∧
  (∀ off_days,
     compute_off_days 2023 ({[738887]} ∪ christmas_2023) monday_to_friday
     = Ok off_days → 738887 ∈ off_days) ∧
  (∀ l s,
     main_suggestions 2023 ({[738887]} ∪ christmas_2023) monday_to_friday 4
     = Ok l → s ∈ l → leave_day s ≠ 738887) ∧
  main_suggestions 2023 ({[738887]} ∪ christmas_2023) monday_to_friday 4
  = main_suggestions 2023 christmas_2023 monday_to_friday 4.
Proof.
  assert (separated 2023 christmas_2023 738887) as Hsep.
  { exists 738886. split.
    - unfold christmas_2023. rewrite elem_of_union, !elem_of_singleton.
      intros [?|?]; discriminate.
    - right. split; reflexivity. }
  split; [exact Hsep|].
  exact (separated_holiday_is_benign 2023 christmas_2023 monday_to_friday 4
           738887 Hsep).
Defined.

(** C5.  For thresholds [t ≤ t'] the scan with [t'] returns the records
    of the scan with [t] whose block reaches [t'], in the same order: a
    subsequence, with no record added or changed. *)
Theorem raising_threshold_removes_suggestions year (off_days : gset Z)
    working_days t t' l :
  t ≤ t' →
  find_leave_suggestions year off_days working_days t = Ok l →
  ∃ l',
    find_leave_suggestions year off_days working_days t' = Ok l' ∧
    l' `sublist_of` l ∧
    l' = filter (λ s, t' ≤ block_length s) l.
Proof.
  intros Ht Hl. exists (filter (λ s, t' ≤ block_length s) l).
  rewrite (find_leave_suggestions_threshold _ _ _ t t') by done.
  rewrite Hl. split; [done|]. split; [apply sublist_filter|done].
Qed.

(** C5 (witness): thresholds 2 and 3 in 2023; the record of Thursday
    28 December, with a block of two days, is dropped. *)
Lemma raising_threshold_removes_suggestions_witness :
  2 ≤ 3 ∧
  find_leave_suggestions 2023 christmas_2023 monday_to_friday 2
  = Ok [Suggestion 738880 738879 738881 3;
        Suggestion 738882 738881 738882 2] ∧
  ∃ l',
    find_leave_suggestions 2023 christmas_2023 monday_to_friday 3 = Ok l' ∧
    l' `sublist_of` [Suggestion 738880 738879 738881 3;
                     Suggestion 738882 738881 738882 2] ∧
    l' = filter (λ s, 3 ≤ block_length s)
           [Suggestion 738880 738879 738881 3;
            Suggestion 738882 738881 738882 2].
Proof.
  split; [discriminate|]. split; [vm_compute; reflexivity|].
  apply (raising_threshold_removes_suggestions 2023 christmas_2023
           monday_to_friday 2 3).
  - discriminate.
  - vm_compute. reflexivity.
Defined.

(** C6 (the code departs from it).  The generator is to return the dates
    of every year.  For 9999, the last year a date can have, it raises
    [OverflowError]: after December 31 is appended the loop adds one day
    to it before testing the bound. *)
Theorem generate_year_dates_last_year :
  date 9999 1 1 = Ok 3651695 ∧ date 9999 12 31 = Ok _MAXORDINAL ∧
  generate_year_dates 9999 = Raise OverflowError.
Proof.
  split; [reflexivity|]. split; [reflexivity|]. vm_compute. reflexivity.
Qed.

(** C7.  Run over a store of set objects, the scan returns what it
    returns over set values and only allocates: the store afterwards is
    the store before followed by one new object for each candidate among
    the dates scanned (all the dates of the year when the scan returns),
    in their order, equal to the off-day set with that candidate added.
    Each of these objects is at a reference that did not exist before,
    and the block of every record is the one the resolver gives on the
    object made for its leave day.  Every object that existed before the
    call, the caller's off-day set among them, is unchanged. *)
Theorem find_leave_suggestions_preserves_store (h : list (gset Z))
    (off_days : nat) (O : gset Z) year working_days threshold :
  h !! off_days = Some O →
  ∃ scanned ds h',
    store.find_leave_suggestions year off_days working_days threshold h
    = (find_leave_suggestions year O working_days threshold, h') ∧
    h' = h ++ ((λ d, {[d]} ∪ O) <$> ds) ∧
    ds = candidates O working_days scanned ∧
    scanned `prefix_of` seqZ (year_start year) (days_in_year year) ∧
    (∀ l, find_leave_suggestions year O working_days threshold = Ok l →
          scanned = seqZ (year_start year) (days_in_year year)) ∧
    Forall (λ d, (d ∉ O) ∧ weekday d ∈ working_days) ds ∧
    h' !! off_days = Some O ∧
    (∀ r s, h !! r = Some s → h' !! r = Some s) ∧
    (∀ (i : nat) d, ds !! i = Some d →
       h !! (length h + i)%nat = None ∧
       h' !! (length h + i)%nat = Some ({[d]} ∪ O)) ∧
    (∀ l s, find_leave_suggestions year O working_days threshold = Ok l →
       s ∈ l →
       ∃ i : nat,
         ds !! i = Some (leave_day s) ∧
         store.get_continuous_block (leave_day s) (length h + i)%nat h'
         = (Ok (block_start s, block_end s, block_length s), h')).
Proof.
  intros Hr.
  assert (∃ scanned,
    store.find_leave_suggestions year off_days working_days threshold h
    = (find_leave_suggestions year O working_days threshold,
       h ++ ((λ d, {[d]} ∪ O) <$> candidates O working_days scanned)) ∧
    scanned `prefix_of` seqZ (year_start year) (days_in_year year) ∧
    (∀ l, find_leave_suggestions year O working_days threshold = Ok l →
          scanned = seqZ (year_start year) (days_in_year year)))
    as (scanned & Hrun & Hpre & Hall).
  { unfold store.find_leave_suggestions, find_leave_suggestions,
      store.bind, store.lift.
    destruct (generate_year_dates year) as [dates| |] eqn:Hd; bind_step.
    - apply generate_year_dates_Ok in Hd as [_ ->].
      apply store_for_each_candidates, Hr.
    - exists []. rewrite app_nil_r. split; [done|].
      split; [apply prefix_nil|done].
    - exists []. rewrite app_nil_r. split; [done|].
      split; [apply prefix_nil|done]. }
  set (ds := candidates O working_days scanned) in *.
  assert (∀ (i : nat) d, ds !! i = Some d →
            (h ++ ((λ d, {[d]} ∪ O) <$> ds)) !! (length h + i)%nat
            = Some ({[d]} ∪ O)) as Hcopy.
  { intros i d Hi. rewrite lookup_app_r by lia.
    replace (length h + i - length h)%nat with i by lia.
    by rewrite list_lookup_fmap, Hi. }
  exists scanned, ds, (h ++ ((λ d, {[d]} ∪ O) <$> ds)).
  split; [exact Hrun|]. split; [done|]. split; [done|].
  split; [exact Hpre|]. split; [exact Hall|].
  split; [|split; [|split; [|split]]].
  - apply Forall_forall. intros d Hd. unfold ds, candidates in Hd.
    apply list_elem_of_filter in Hd as [(Hw & Ho & _) _]. done.
  - by apply lookup_app_l_Some.
  - intros r s. apply lookup_app_l_Some.
  - intros i d Hi. split; [apply lookup_ge_None; lia|by apply Hcopy].
  - intros l s Hl Hs. pose proof (Hall l Hl) as Hscanned.
    apply find_leave_suggestions_genuine in Hl.
    rewrite Forall_forall in Hl.
    destruct (Hl s Hs) as (Hyr & Hw & Ho & Hn & Hb & _).
    assert (leave_day s ∈ ds) as Hin.
    { unfold ds, candidates. rewrite Hscanned.
      apply list_elem_of_filter. split; [done|]. by apply elem_of_year. }
    apply list_elem_of_lookup_1 in Hin as [i Hi].
    exists i. split; [exact Hi|].
    rewrite store_get_continuous_block.
    rewrite (contents_lookup _ _ _ (Hcopy i _ Hi)). by rewrite Hb.
Qed.

(** C7 (witness): a store whose only object is the off-day set. *)
Lemma find_leave_suggestions_preserves_store_witness :
  [christmas_2023] !! 0%nat = Some christmas_2023 ∧
  ∃ scanned ds h',
    store.find_leave_suggestions 2023 0%nat monday_to_friday 2
      [christmas_2023]
    = (find_leave_suggestions 2023 christmas_2023 monday_to_friday 2, h') ∧
    h' = [christmas_2023] ++ ((λ d, {[d]} ∪ christmas_2023) <$> ds) ∧
    ds = candidates christmas_2023 monday_to_friday scanned ∧
    scanned `prefix_of` seqZ (year_start 2023) (days_in_year 2023) ∧
    (∀ l, find_leave_suggestions 2023 christmas_2023 monday_to_friday 2
          = Ok l →
          scanned = seqZ (year_start 2023) (days_in_year 2023)) ∧
    Forall (λ d, (d ∉ christmas_2023) ∧ weekday d ∈ monday_to_friday) ds ∧
    h' !! 0%nat = Some christmas_2023 ∧
    (∀ r s, [christmas_2023] !! r = Some s → h' !! r = Some s) ∧
    (∀ (i : nat) d, ds !! i = Some d →
       [christmas_2023] !! (length [christmas_2023] + i)%nat = None ∧
       h' !! (length [christmas_2023] + i)%nat
       = Some ({[d]} ∪ christmas_2023)) ∧
    (∀ l s, find_leave_suggestions 2023 christmas_2023 monday_to_friday 2
            = Ok l →
       s ∈ l →
       ∃ i : nat,
         ds !! i = Some (leave_day s) ∧
         store.get_continuous_block (leave_day s)
           (length [christmas_2023] + i)%nat h'
         = (Ok (block_start s, block_end s, block_length s), h')).
Proof.
  split; [reflexivity|].
  apply (find_leave_suggestions_preserves_store [christmas_2023] 0%nat
           christmas_2023 2023 monday_to_friday 2).
  reflexivity.
Defined.

(** C7 (the witness in full).  In 2023, with Christmas Day and
    27 December off and Monday to Friday worked, the candidates are
    Tuesday 26 and Thursday 28 December: the scan leaves the off-day set
    as it was and two new objects behind it, one for each candidate. *)
Example scenario_store_christmas_2023 :
  candidates christmas_2023 monday_to_friday
    (seqZ (year_start 2023) (days_in_year 2023)) = [738880; 738882] ∧
  store.find_leave_suggestions 2023 0%nat monday_to_friday 2
    [christmas_2023]
  = (Ok [Suggestion 738880 738879 738881 3;
         Suggestion 738882 738881 738882 2],
     [christmas_2023; {[738880]} ∪ christmas_2023;
      {[738882]} ∪ christmas_2023]).
Proof. split; vm_compute; reflexivity. Qed.

(** C8 (the code departs from it).  The scan is to return a list for
    every valid year.  For the year 9999 it raises [OverflowError], also
    with no working day at all, since it starts by generating the dates
    of the year; for the year 1 it raises [OverflowError] at Monday 1
    January, whose previous day does not exist. *)
Theorem find_leave_suggestions_raises :
  find_leave_suggestions 9999 ∅ monday_to_friday 4 = Raise OverflowError ∧
  find_leave_suggestions 9999 ∅ [] 4 = Raise OverflowError ∧
  find_leave_suggestions 1 ∅ monday_to_friday 4 = Raise OverflowError.
Proof. repeat split; vm_compute; reflexivity. Qed.


(** C10 (the code departs from it).  The resolver is to return a triple
    for every candidate, in the set or not.  For the first and for the
    last date that exist it raises [OverflowError] even on the empty
    set. *)
Theorem get_continuous_block_at_date_limits :
  get_continuous_block 1 ∅ = Raise OverflowError ∧
  get_continuous_block _MAXORDINAL ∅ = Raise OverflowError.
Proof. split; vm_compute; reflexivity. Qed.

End specification.

(** * Auxiliary facts for the further properties *)

Lemma elem_of_concat {A} (x : A) (ls : list (list A)) :
  x ∈ concat ls ↔ ∃ l, x ∈ l ∧ l ∈ ls.
Proof.
  induction ls as [|l ls IH]; simpl.
  - rewrite elem_of_nil. split; [done|].
    intros (l & _ & Hl). by apply elem_of_nil in Hl.
  - rewrite elem_of_app, IH. split.
    + intros [Hx|(l' & Hx & Hl')].
      * exists l. split; [done|apply list_elem_of_here].
      * exists l'. split; [done|by apply list_elem_of_further].
    + intros (l' & Hx & Hl'). apply elem_of_cons in Hl' as [->|Hl'].
      * by left.
      * right. by exists l'.
Qed.

Section working_day_lists.
Import holiday_planner.

Implicit Types (off_days holidays : gset Z) (working_days W : list Z).

Lemma weekday_test_ext (W1 W2 : list Z) d :
  (∀ w, 0 ≤ w ≤ 6 → (w ∈ W1 ↔ w ∈ W2)) →
  bool_decide (weekday d ∈ W1) = bool_decide (weekday d ∈ W2).
Proof. intros HW. apply bool_decide_ext, HW, weekday_range. Qed.

Lemma compute_off_days_ext_working_days year holidays (W1 W2 : list Z) :
  (∀ w, 0 ≤ w ≤ 6 → (w ∈ W1 ↔ w ∈ W2)) →
  compute_off_days year holidays W1 = compute_off_days year holidays W2.
Proof.
  intros HW. unfold compute_off_days.
  destruct (generate_year_dates year) as [dates| |]; bind_step;
    [|done|done].
  f_equal. revert holidays.
  induction dates as [|d dates IH]; intros holidays; simpl; [done|].
  rewrite (weekday_test_ext W1 W2 d HW). apply IH.
Qed.

Lemma find_leave_suggestions_ext_working_days year off_days (W1 W2 : list Z)
    threshold :
  (∀ w, 0 ≤ w ≤ 6 → (w ∈ W1 ↔ w ∈ W2)) →
  find_leave_suggestions year off_days W1 threshold
  = find_leave_suggestions year off_days W2 threshold.
Proof.
  intros HW. unfold find_leave_suggestions.
  destruct (generate_year_dates year) as [dates| |]; bind_step;
    [|done|done].
  apply for_each_ext. intros acc d _.
  unfold scan_day. by rewrite (weekday_test_ext W1 W2 d HW).
Qed.

(** The count of [main] is the number of dates whose weekday is worked. *)
Lemma count_working_days_filter W dates :
  count_working_days W dates
  = Z.of_nat (length (filter (λ d, weekday d ∈ W) dates)).
Proof.
  unfold count_working_days.
  assert (∀ n,
    foldl (λ total d,
             if bool_decide (weekday d ∈ W) then total + 1 else total)
      n dates
    = n + Z.of_nat (length (filter (λ d, weekday d ∈ W) dates))) as H;
    [|by rewrite H].
  induction dates as [|d dates IH]; intros n; simpl; [lia|].
  rewrite IH. case_bool_decide as Hd.
  - rewrite filter_cons_True by done. simpl. lia.
  - by rewrite filter_cons_False by done.
Qed.

(** Every weekday occurs among the first seven days of a year. *)
Lemma weekday_in_first_week year w :
  0 ≤ w ≤ 6 →
  ∃ d, year_start year ≤ d ≤ year_start year + 6 ∧ weekday d = w.
Proof.
  intros Hw. unfold weekday.
  exists (year_start year + (w - (year_start year + 6)) `mod` 7).
  pose proof (Z.mod_pos_bound (w - (year_start year + 6)) 7 ltac:(lia)).
  split; [lia|].
  replace (year_start year + (w - (year_start year + 6)) `mod` 7 + 6)
    with ((w - (year_start year + 6)) `mod` 7 + (year_start year + 6))
    by lia.
  rewrite Zplus_mod_idemp_l.
  replace (w - (year_start year + 6) + (year_start year + 6)) with w by lia.
  apply Z.mod_small. lia.
Qed.

End working_day_lists.

(** * Further properties of the core *)

Section core_properties.
Import holiday_planner.

Implicit Types (off_set off_days holidays : gset Z) (working_days : list Z).

(** X1.  The outcome of the generator is decided by the year alone: a
    list for the years 1 to 9998; [OverflowError] for 9999 and for the
    integers that do not fit a C [int]; [ValueError] for the other
    integers that are no year of [datetime.date]. *)
Theorem generate_year_dates_outcomes year :
  ((∃ dates, generate_year_dates year = Ok dates) ↔
   MINYEAR ≤ year < MAXYEAR) ∧
  (generate_year_dates year = Raise OverflowError ↔
   year = MAXYEAR ∨ ¬ (INT_MIN ≤ year ≤ INT_MAX)) ∧
  (generate_year_dates year = Raise ValueError ↔
   INT_MIN ≤ year ≤ INT_MAX ∧ ¬ (MINYEAR ≤ year ≤ MAXYEAR)).
Proof.
  unfold MINYEAR, MAXYEAR, INT_MIN, INT_MAX.
  destruct (generate_year_dates_cases year) as [[Hy H]|[[Hy H]|[Hy H]]];
    unfold MINYEAR, MAXYEAR, INT_MIN, INT_MAX in Hy; rewrite H.
  - split; [split; [done|eauto]|]. split; (split; [done|lia]).
  - split; [split; [by intros [? ?]|lia]|]. split; [done|].
    split; [done|lia].
  - split; [split; [by intros [? ?]|lia]|]. split; [|done].
    split; [done|lia].
Qed.

(** X2 (witness): the leap year 2024. *)
Lemma generate_year_dates_correct_witness :
  MINYEAR ≤ 2024 < MAXYEAR ∧
  ∃ dates jan1 dec31,
    generate_year_dates 2024 = Ok dates ∧
    date 2024 1 1 = Ok jan1 ∧ date 2024 12 31 = Ok dec31 ∧
    head dates = Some jan1 ∧ last dates = Some dec31 ∧
    (∀ d, d ∈ dates ↔ jan1 ≤ d ≤ dec31) ∧
    (∀ (i : nat) d d', dates !! i = Some d → dates !! S i = Some d' →
                       d' = d + 1) ∧
    (∀ (i j : nat) d d', (i < j)%nat → dates !! i = Some d →
                         dates !! j = Some d' → d < d') ∧
    length dates = (if _is_leap 2024 then 366 else 365)%nat.
Proof.
  split; [split; [discriminate|reflexivity]|].
  apply (generate_year_dates_correct 2024).
  split; [discriminate|reflexivity].
Defined.

(** X3 (witness): Tuesday 26 December 2023 in the run of 25, 26 and
    27 December. *)
Lemma get_continuous_block_correct_witness :
  ∃ start end_ len,
    get_continuous_block 738880 ({[738880]} ∪ christmas_2023)
    = Ok (start, end_, len) ∧
    start ≤ 738880 ≤ end_ ∧
    (∀ x, start ≤ x ≤ end_ → x ∈ ({[738880]} ∪ christmas_2023 : gset Z)) ∧
    (start - 1 ∉ ({[738880]} ∪ christmas_2023 : gset Z)) ∧
    (end_ + 1 ∉ ({[738880]} ∪ christmas_2023 : gset Z)) ∧
    len = days_between end_ start + 1.
Proof.
  apply (get_continuous_block_correct 738880
           ({[738880]} ∪ christmas_2023) 738878 738882).
  - vm_compute. reflexivity.
  - unfold _MAXORDINAL. lia.
  - unfold _MAXORDINAL. lia.
  - vm_compute. discriminate.
  - vm_compute. discriminate.
Defined.

(** X4.  For a candidate that is a date, the resolver returns a block
    exactly when a date outside the set exists on each side of the
    candidate; in every other case it raises [OverflowError]. *)
Theorem get_continuous_block_outcome candidate off_set :
  valid_date candidate →
  ((∃ lo hi, 1 ≤ lo < candidate ∧ candidate < hi ≤ _MAXORDINAL ∧
             (lo ∉ off_set) ∧ (hi ∉ off_set)) ∧
   ∃ start end_,
     get_continuous_block candidate off_set
     = Ok (start, end_, end_ - start + 1))
  ∨ ((¬ ∃ lo hi, 1 ≤ lo < candidate ∧ candidate < hi ≤ _MAXORDINAL ∧
                 (lo ∉ off_set) ∧ (hi ∉ off_set)) ∧
     get_continuous_block candidate off_set = Raise OverflowError).
Proof.
  intros Hv.
  destruct (get_continuous_block candidate off_set)
    as [[[start end_] len]|e|] eqn:H.
  - left. apply get_continuous_block_Ok in H
      as (Hc & -> & _ & Hs & He & Hvs & Hve).
    unfold valid_date, days_between in *. split; [|by exists start, end_].
    exists (start - 1), (end_ + 1). repeat split; solve [lia|assumption].
  - right. apply get_continuous_block_Raise in H as [-> H]; [|done].
    split; [|done]. intros (lo & hi & Hlo & Hhi & Hlo' & Hhi').
    destruct H as [H|H]; [apply Hlo'|apply Hhi']; apply H; lia.
  - by apply get_continuous_block_not_OutOfFuel in H.
Qed.

(** X4 (witness): Tuesday 26 December 2023 between the two holidays;
    the first case holds. *)
Lemma get_continuous_block_outcome_witness :
  valid_date 738880 ∧
  (((∃ lo hi, 1 ≤ lo < 738880 ∧ 738880 < hi ≤ _MAXORDINAL ∧
              (lo ∉ christmas_2023) ∧ (hi ∉ christmas_2023)) ∧
    ∃ start end_,
      get_continuous_block 738880 christmas_2023
      = Ok (start, end_, end_ - start + 1))
   ∨ ((¬ ∃ lo hi, 1 ≤ lo < 738880 ∧ 738880 < hi ≤ _MAXORDINAL ∧
                  (lo ∉ christmas_2023) ∧ (hi ∉ christmas_2023)) ∧
      get_continuous_block 738880 christmas_2023 = Raise OverflowError)).
Proof.
  assert (valid_date 738880) as Hv by (split; discriminate).
  split; [exact Hv|].
  exact (get_continuous_block_outcome 738880 christmas_2023 Hv).
Defined.

(** X5.  The resolver never tests the candidate itself: with the
    candidate added to the set, as the scan does, it returns what it
    returns on the set alone. *)
Theorem get_continuous_block_ignores_candidate candidate off_set :
  get_continuous_block candidate ({[candidate]} ∪ off_set)
  = get_continuous_block candidate off_set.
Proof.
  assert (∀ x, x ≠ candidate →
               (x ∈ ({[candidate]} ∪ off_set : gset Z) ↔ x ∈ off_set))
    as Hagree.
  { intros x Hx. rewrite elem_of_union, elem_of_singleton.
    split; [intros [?|?]; [contradiction|assumption]|by right]. }
  unfold get_continuous_block.
  destruct (date_sub candidate 1) as [prev| |] eqn:Hp; bind_step;
    [|done|done].
  apply date_sub_Ok in Hp as [-> Hp].
  rewrite (expand_backwards_ext (S (size ({[candidate]} ∪ off_set)))
             (S (size off_set)) ({[candidate]} ∪ off_set) off_set
             candidate (candidate - 1) 0);
    [ | lia | lia | lia
      | intros x Hx; apply Hagree; lia
      | apply (expand_backwards_fuel _ ({[candidate]} ∪ off_set));
        [lia|auto]
      | apply (expand_backwards_fuel _ off_set); [lia|auto] ].
  destruct (expand_backwards (S (size off_set)) off_set candidate
              (candidate - 1)) as [start| |]; bind_step; [|done|done].
  destruct (date_add candidate 1) as [nxt| |] eqn:Hn; bind_step;
    [|done|done].
  apply date_add_Ok in Hn as [-> Hn].
  rewrite (expand_forwards_ext (S (size ({[candidate]} ∪ off_set)))
             (S (size off_set)) ({[candidate]} ∪ off_set) off_set
             candidate (candidate + 1) (_MAXORDINAL + 1));
    [ reflexivity | lia | lia | lia
      | intros x Hx; apply Hagree; lia
      | apply (expand_forwards_fuel _ ({[candidate]} ∪ off_set));
        [lia|auto]
      | apply (expand_forwards_fuel _ off_set); [lia|auto] ].
Qed.

(** X6.  The block belongs to the run, not to the anchor: every date of
    the block of an anchor in the set has that same block. *)
Theorem get_continuous_block_same_run a b off_set start end_ len :
  a ∈ off_set →
  get_continuous_block a off_set = Ok (start, end_, len) →
  start ≤ b ≤ end_ →
  get_continuous_block b off_set = Ok (start, end_, len).
Proof.
  intros Ha H Hb.
  apply get_continuous_block_Ok in H as (Hc & -> & Hall & Hs & He & Hvs & Hve).
  assert (∀ x, start ≤ x ≤ end_ → x ∈ off_set) as Hin.
  { intros x Hx. destruct (decide (x = a)) as [->|]; [done|]. by apply Hall. }
  unfold valid_date, days_between in *.
  destruct (get_continuous_block_returns b off_set (start - 1) (end_ + 1))
    as (s' & e' & H' & Hs' & He'); [lia|lia|done|done|].
  rewrite H'. apply get_continuous_block_Ok in H'
    as (Hc' & _ & _ & Hs'' & He'' & _).
  assert (s' = start) as ->.
  { destruct (decide (s' = start)); [done|].
    destruct Hs''. apply Hin. lia. }
  assert (e' = end_) as ->; [|done].
  destruct (decide (e' = end_)); [done|].
  destruct He''. apply Hin. lia.
Qed.

(** X6 (witness): in the run of 25, 26 and 27 December 2023, the block of
    the 25th is that of the 27th. *)
Lemma get_continuous_block_same_run_witness :
  get_continuous_block 738879 ({[738880]} ∪ christmas_2023)
  = Ok (738879, 738881, 3) ∧
  get_continuous_block 738881 ({[738880]} ∪ christmas_2023)
  = Ok (738879, 738881, 3).
Proof.
  split; [vm_compute; reflexivity|].
  apply (get_continuous_block_same_run 738879 738881
           ({[738880]} ∪ christmas_2023) 738879 738881 3).
  - vm_compute. reflexivity.
  - vm_compute. reflexivity.
  - split; discriminate.
Defined.

(** X7.  A block has at least one day and at most one day more than the
    set has members. *)
Theorem get_continuous_block_length_bound candidate off_set start end_ len :
  get_continuous_block candidate off_set = Ok (start, end_, len) →
  1 ≤ len ≤ Z.of_nat (size off_set) + 1.
Proof.
  intros H.
  apply get_continuous_block_Ok in H as (Hc & -> & Hall & _).
  unfold days_between. split; [lia|].
  set (others := (list_to_set (seqZ start (end_ - start + 1)) : gset Z)
                 ∖ {[candidate]}).
  assert (others ⊆ off_set) as Hsub.
  { intros x Hx. apply elem_of_difference in Hx as [Hx Hne].
    apply elem_of_list_to_set, elem_of_seqZ in Hx.
    apply Hall; [lia|]. by rewrite elem_of_singleton in Hne. }
  apply subseteq_size in Hsub.
  assert (size others = Z.to_nat (end_ - start)) as Hsize; [|lia].
  unfold others. rewrite size_difference.
  - rewrite size_list_to_set by apply NoDup_seqZ.
    rewrite length_seqZ, size_singleton. lia.
  - intros x Hx. apply elem_of_singleton in Hx as ->.
    apply elem_of_list_to_set, elem_of_seqZ. lia.
Qed.

(** X7 (witness): a block of 3 days over a set of 2 dates. *)
Lemma get_continuous_block_length_bound_witness :
  get_continuous_block 738880 christmas_2023 = Ok (738879, 738881, 3) ∧
  1 ≤ 3 ≤ Z.of_nat (size christmas_2023) + 1.
Proof.
  split; [vm_compute; reflexivity|].
  apply (get_continuous_block_length_bound 738880 christmas_2023
           738879 738881 3).
  vm_compute. reflexivity.
Defined.

End core_properties.

(** * Further properties of the off-day builder and of the scan *)

Section off_days_and_scan.
Import holiday_planner.

Implicit Types (off_days holidays : gset Z) (working_days : list Z).

(** X8.  For a year from 1 to 9998 the builder returns a set that keeps
    every holiday, whatever its year, and adds exactly the dates of the
    year whose weekday is not worked; a second run on its own result
    changes nothing. *)
Theorem compute_off_days_idempotent year holidays working_days :
  MINYEAR ≤ year < MAXYEAR →
  ∃ off_days,
    compute_off_days year holidays working_days = Ok off_days ∧
    holidays ⊆ off_days ∧
    (∀ x, x ∈ off_days ∖ holidays ↔
          (x ∉ holidays) ∧ year_start year ≤ x ≤ year_end year ∧
          (weekday x ∉ working_days)) ∧
    compute_off_days year off_days working_days = Ok off_days.
Proof.
  intros Hy.
  destruct (compute_off_days_returns year holidays working_days Hy)
    as [off_days H].
  exists off_days. split; [exact H|].
  pose proof H as Hspec. apply compute_off_days_Ok in Hspec as [_ Hspec].
  split; [intros x Hx; apply Hspec; by left|].
  split.
  - intros x. rewrite elem_of_difference, Hspec. tauto.
  - destruct (compute_off_days_returns year off_days working_days Hy)
      as [off_days' H'].
    rewrite H'. f_equal.
    apply compute_off_days_Ok in H' as [_ Hspec'].
    apply set_eq. intros x. rewrite Hspec', !Hspec. tauto.
Qed.

(** X8 (witness): the year 2023, Monday to Friday, with the two
    Christmas holidays. *)
Lemma compute_off_days_idempotent_witness :
  MINYEAR ≤ 2023 < MAXYEAR ∧
  ∃ off_days,
    compute_off_days 2023 christmas_2023 monday_to_friday = Ok off_days ∧
    christmas_2023 ⊆ off_days ∧
    (∀ x, x ∈ off_days ∖ christmas_2023 ↔
          (x ∉ christmas_2023) ∧ year_start 2023 ≤ x ≤ year_end 2023 ∧
          (weekday x ∉ monday_to_friday)) ∧
    compute_off_days 2023 off_days monday_to_friday = Ok off_days.
Proof.
  assert (MINYEAR ≤ 2023 < MAXYEAR) as Hy by (unfold MINYEAR, MAXYEAR; lia).
  split; [exact Hy|].
  exact (compute_off_days_idempotent 2023 christmas_2023 monday_to_friday Hy).
Defined.

(** X9.  Only the weekday numbers 0 to 6 of the working-day list are
    read: two lists with the same members among 0..6 (whatever their
    order, their repetitions and their other entries) give the same off
    days and the same suggestions. *)
Theorem main_suggestions_working_days year holidays (W1 W2 : list Z)
    threshold :
  (∀ w, 0 ≤ w ≤ 6 → (w ∈ W1 ↔ w ∈ W2)) →
  compute_off_days year holidays W1 = compute_off_days year holidays W2 ∧
  main_suggestions year holidays W1 threshold
  = main_suggestions year holidays W2 threshold.
Proof.
  intros HW.
  pose proof (compute_off_days_ext_working_days year holidays W1 W2 HW)
    as Hoff.
  split; [exact Hoff|].
  unfold main_suggestions. rewrite Hoff.
  destruct (compute_off_days year holidays W2) as [off_days| |]; bind_step;
    [|done|done].
  by apply find_leave_suggestions_ext_working_days.
Qed.

(** X9 (witness): a list out of order, with a repetition, with 7
    and with -1, against Monday to Friday. *)
Lemma main_suggestions_working_days_witness :
  (∀ w, 0 ≤ w ≤ 6 → (w ∈ [4; 0; 7; 1; 2; 3; 4; -1] ↔ w ∈ monday_to_friday)) ∧
  compute_off_days 2023 christmas_2023 [4; 0; 7; 1; 2; 3; 4; -1]
  = compute_off_days 2023 christmas_2023 monday_to_friday ∧
  main_suggestions 2023 christmas_2023 [4; 0; 7; 1; 2; 3; 4; -1] 3
  = main_suggestions 2023 christmas_2023 monday_to_friday 3.
Proof.
  assert (∀ w, 0 ≤ w ≤ 6 →
               (w ∈ [4; 0; 7; 1; 2; 3; 4; -1] ↔ w ∈ monday_to_friday)) as HW.
  { intros w Hw. unfold monday_to_friday.
    rewrite !elem_of_cons, !elem_of_nil. lia. }
  split; [exact HW|].
  exact (main_suggestions_working_days 2023 christmas_2023
           [4; 0; 7; 1; 2; 3; 4; -1] monday_to_friday 3 HW).
Defined.

(** X10 (witness): the scan of 2023 over Christmas Day and
    27 December with threshold 2, which returns two records. *)
Lemma find_leave_suggestions_ordered_witness :
  find_leave_suggestions 2023 christmas_2023 monday_to_friday 2
  = Ok [Suggestion 738880 738879 738881 3;
        Suggestion 738882 738881 738882 2] ∧
  ∀ (i j : nat) s s',
    (i < j)%nat →
    [Suggestion 738880 738879 738881 3;
     Suggestion 738882 738881 738882 2] !! i = Some s →
    [Suggestion 738880 738879 738881 3;
     Suggestion 738882 738881 738882 2] !! j = Some s' →
    leave_day s < leave_day s'.
Proof.
  split; [vm_compute; reflexivity|].
  apply (find_leave_suggestions_ordered 2023 christmas_2023
           monday_to_friday 2).
  vm_compute. reflexivity.
Defined.

(** X11.  The scan is sound and complete: when it returns, a record is
    in the list exactly when its leave day is a date of the year that is
    a working day, is not off, has a neighbour that is off, and the
    record holds the block of that day in the off days extended by it,
    of a length that reaches the threshold. *)
Theorem find_leave_suggestions_complete year off_days working_days
    threshold l :
  find_leave_suggestions year off_days working_days threshold = Ok l →
  ∀ s, s ∈ l ↔ genuine_suggestion year off_days working_days threshold s.
Proof.
  intros H s. split.
  { intros Hs. apply find_leave_suggestions_genuine in H.
    rewrite Forall_forall in H. by apply H. }
  intros (Hyr & Hw & Ho & Hn & Hb & Ht).
  unfold find_leave_suggestions in H.
  apply result_bind_Ok in H as (dates & Hd & H).
  apply generate_year_dates_Ok in Hd as [_ ->].
  apply for_each_scan_day_Ok in H as (ls & -> & Hls). simpl.
  apply elem_of_year, list_elem_of_lookup_1 in Hyr as [i Hi].
  destruct (Forall2_lookup_l _ _ _ _ _ Hls Hi) as (r & Hr & Hscan).
  apply elem_of_concat. exists r.
  split; [|by eapply list_elem_of_lookup_2].
  revert Hscan. unfold scan_day.
  rewrite (bool_decide_eq_true_2 _ Hw), (bool_decide_eq_false_2 _ Ho).
  simpl. intros Hscan.
  apply result_bind_Ok in Hscan as (near & Hnear & Hscan).
  apply neighbour_off_Ok in Hnear as [_ Hnear].
  destruct near; [|destruct Hnear as [_ Hnear]; by specialize (Hnear Hn)].
  rewrite Hb in Hscan. bind_step in Hscan.
  rewrite (bool_decide_eq_true_2 _ Ht) in Hscan.
  injection Hscan as <-. destruct s. simpl. apply list_elem_of_here.
Qed.

(** X11 (witness): the scan of 2023 over the two Christmas
    holidays with threshold 3. *)
Lemma find_leave_suggestions_complete_witness :
  find_leave_suggestions 2023 christmas_2023 monday_to_friday 3
  = Ok [Suggestion 738880 738879 738881 3] ∧
  ∀ s, s ∈ [Suggestion 738880 738879 738881 3] ↔
       genuine_suggestion 2023 christmas_2023 monday_to_friday 3 s.
Proof.
  split; [vm_compute; reflexivity|].
  apply (find_leave_suggestions_complete 2023 christmas_2023
           monday_to_friday 3).
  vm_compute. reflexivity.
Defined.

(** X12.  The block of a suggestion: it contains the leave day, every
    other day of it is an off day, the day before it and the day after
    it are not off, and its length counts its days and is at least 2. *)
Theorem find_leave_suggestions_blocks year off_days working_days
    threshold l s :
  find_leave_suggestions year off_days working_days threshold = Ok l →
  s ∈ l →
  block_start s ≤ leave_day s ≤ block_end s ∧
  (∀ x, block_start s ≤ x ≤ block_end s →
        x ≠ leave_day s → x ∈ off_days) ∧
  (block_start s - 1 ∉ off_days) ∧ (block_end s + 1 ∉ off_days) ∧
  block_length s = block_end s - block_start s + 1 ∧
  2 ≤ block_length s.
Proof.
  intros H Hs. apply find_leave_suggestions_genuine in H.
  rewrite Forall_forall in H.
  destruct (H s Hs) as (_ & _ & Ho & Hn & Hb & _).
  apply get_continuous_block_Ok in Hb
    as (Hc & Hlen & Hall & Hbs & Hbe & _).
  unfold days_between in Hlen.
  assert (∀ x, x ≠ leave_day s →
               x ∈ ({[leave_day s]} ∪ off_days : gset Z) → x ∈ off_days)
    as Hother.
  { intros x Hx. rewrite elem_of_union, elem_of_singleton.
    intros [?|?]; [contradiction|assumption]. }
  split; [exact Hc|].
  split; [intros x Hx Hne; apply Hother; [exact Hne|by apply Hall]|].
  split; [intros Hin; apply Hbs; apply elem_of_union; by right|].
  split; [intros Hin; apply Hbe; apply elem_of_union; by right|].
  split; [exact Hlen|].
  destruct (decide (block_start s = block_end s)) as [Heq|Hne]; [|lia].
  exfalso. destruct Hn as [Hn|Hn].
  - apply Hbs. apply elem_of_union. right.
    replace (block_start s) with (leave_day s) by lia. exact Hn.
  - apply Hbe. apply elem_of_union. right.
    replace (block_end s) with (leave_day s) by lia. exact Hn.
Qed.

(** X12 (witness): the record for Tuesday 26 December 2023. *)
Lemma find_leave_suggestions_blocks_witness :
  find_leave_suggestions 2023 christmas_2023 monday_to_friday 3
  = Ok [Suggestion 738880 738879 738881 3] ∧
  738879 ≤ 738880 ≤ 738881 ∧
  (∀ x, 738879 ≤ x ≤ 738881 → x ≠ 738880 → x ∈ christmas_2023) ∧
  (738879 - 1 ∉ christmas_2023) ∧ (738881 + 1 ∉ christmas_2023) ∧
  3 = 738881 - 738879 + 1 ∧
  2 ≤ 3.
Proof.
  split; [vm_compute; reflexivity|].
  apply (find_leave_suggestions_blocks 2023 christmas_2023
           monday_to_friday 3 [Suggestion 738880 738879 738881 3]
           (Suggestion 738880 738879 738881 3)).
  - vm_compute. reflexivity.
  - apply list_elem_of_here.
Defined.

(** X13.  No block is shorter than 2 days, so every threshold up to 2
    (zero and negative ones too) gives the same outcome as 2. *)
Theorem find_leave_suggestions_low_threshold year off_days working_days
    threshold :
  threshold ≤ 2 →
  find_leave_suggestions year off_days working_days threshold
  = find_leave_suggestions year off_days working_days 2.
Proof.
  intros Ht.
  rewrite (find_leave_suggestions_threshold year off_days working_days
             threshold 2 Ht).
  destruct (find_leave_suggestions year off_days working_days threshold)
    as [l| |] eqn:H; cbn [fmap result_fmap]; [|done|done].
  f_equal. apply find_leave_suggestions_genuine in H.
  induction H as [|s l Hs _ IH]; [done|].
  rewrite filter_cons_True; [f_equal; exact IH|].
  destruct Hs as (_ & _ & Ho & Hn & Hb & _).
  apply get_continuous_block_Ok in Hb as (Hc & Hlen & _ & Hbs & Hbe & _).
  unfold days_between in Hlen. simpl.
  destruct (decide (block_start s = block_end s)) as [Heq|Hne]; [|lia].
  exfalso. destruct Hn as [Hn|Hn].
  - apply Hbs. apply elem_of_union. right.
    replace (block_start s) with (leave_day s) by lia. exact Hn.
  - apply Hbe. apply elem_of_union. right.
    replace (block_end s) with (leave_day s) by lia. exact Hn.
Qed.

(** X13 (witness): the threshold -1. *)
Lemma find_leave_suggestions_low_threshold_witness :
  -1 ≤ 2 ∧
  find_leave_suggestions 2023 christmas_2023 monday_to_friday (-1)
  = find_leave_suggestions 2023 christmas_2023 monday_to_friday 2.
Proof.
  split; [lia|].
  apply (find_leave_suggestions_low_threshold 2023 christmas_2023
           monday_to_friday (-1)).
  lia.
Defined.

(** X14.  From parsing to output nothing is raised for a year from 2 to
    9998 as long as neither 0001-01-01 nor 9999-12-31 is a holiday:
    the two calls of [main] return a list for every working-day list
    and every threshold. *)
Theorem main_suggestions_returns year holidays working_days threshold :
  MINYEAR < year < MAXYEAR →
  1 ∉ holidays → _MAXORDINAL ∉ holidays →
  ∃ off_days l,
    compute_off_days year holidays working_days = Ok off_days ∧
    find_leave_suggestions year off_days working_days threshold = Ok l ∧
    main_suggestions year holidays working_days threshold = Ok l.
Proof.
  intros Hy Hmin Hmax.
  destruct (compute_off_days_returns year holidays working_days)
    as [off_days H]; [lia|].
  pose proof H as Hspec. apply compute_off_days_Ok in Hspec as [_ Hspec].
  pose proof (year_start_above_min year ltac:(lia)).
  pose proof (year_end_below_max year ltac:(lia)).
  pose proof (days_in_year_cases (year - 1)).
  pose proof (days_in_year_cases (year + 1)).
  destruct (find_leave_suggestions_returns year off_days working_days
              threshold Hy) as [l Hl].
  - rewrite Hspec. intros [?|[? _]]; [contradiction|lia].
  - rewrite Hspec. intros [?|[? _]]; [contradiction|lia].
  - exists off_days, l. split; [exact H|]. split; [exact Hl|].
    unfold main_suggestions. rewrite H. bind_step. exact Hl.
Qed.

(** X14 (witness): the year 2023 with the two Christmas holidays. *)
Lemma main_suggestions_returns_witness :
  MINYEAR < 2023 < MAXYEAR ∧
  (1 ∉ christmas_2023) ∧ (_MAXORDINAL ∉ christmas_2023) ∧
  ∃ off_days l,
    compute_off_days 2023 christmas_2023 monday_to_friday = Ok off_days ∧
    find_leave_suggestions 2023 off_days monday_to_friday 4 = Ok l ∧
    main_suggestions 2023 christmas_2023 monday_to_friday 4 = Ok l.
Proof.
  assert (MINYEAR < 2023 < MAXYEAR) as Hy by (unfold MINYEAR, MAXYEAR; lia).
  assert (1 ∉ christmas_2023) as Hmin by (vm_compute; discriminate).
  assert (_MAXORDINAL ∉ christmas_2023) as Hmax by (vm_compute; discriminate).
  split; [exact Hy|]. split; [exact Hmin|]. split; [exact Hmax|].
  exact (main_suggestions_returns 2023 christmas_2023 monday_to_friday 4
           Hy Hmin Hmax).
Defined.

(** X15.  A suggestion needs an off day next to it: when no date from
    the day before 1 January to the day after 31 December is off, the
    scan of a year from 2 to 9998 returns the empty list. *)
Theorem find_leave_suggestions_no_off_days year off_days working_days
    threshold :
  MINYEAR < year < MAXYEAR →
  (∀ x, year_start year - 1 ≤ x ≤ year_end year + 1 → x ∉ off_days) →
  find_leave_suggestions year off_days working_days threshold = Ok [].
Proof.
  intros Hy Hnone.
  pose proof (year_start_above_min year ltac:(lia)).
  pose proof (year_end_below_max year ltac:(lia)).
  pose proof (days_in_year_cases (year - 1)).
  pose proof (days_in_year_cases (year + 1)).
  unfold find_leave_suggestions.
  rewrite generate_year_dates_spec by lia. bind_step.
  assert (∀ d, d ∈ seqZ (year_start year) (days_in_year year) →
               scan_day off_days working_days threshold [] d = Ok [])
    as Hscan.
  { intros d Hd. apply elem_of_year in Hd. unfold scan_day.
    destruct (bool_decide (weekday d ∈ working_days)
              && negb (bool_decide (d ∈ off_days))); [|done].
    unfold neighbour_off.
    rewrite date_sub_in_range by lia. bind_step.
    rewrite bool_decide_eq_false_2 by (apply Hnone; lia).
    rewrite date_add_in_range by lia. bind_step.
    rewrite bool_decide_eq_false_2 by (apply Hnone; lia). done. }
  revert Hscan. generalize (seqZ (year_start year) (days_in_year year)).
  intros dates Hscan.
  induction dates as [|d dates IH]; cbn [for_each]; [done|].
  rewrite Hscan by apply list_elem_of_here. bind_step.
  apply IH. intros d' Hd'. apply Hscan. by apply list_elem_of_further.
Qed.

(** X15 (witness): the year 2024 scanned over the two
    holidays of December 2023. *)
Lemma find_leave_suggestions_no_off_days_witness :
  MINYEAR < 2024 < MAXYEAR ∧
  (∀ x, year_start 2024 - 1 ≤ x ≤ year_end 2024 + 1 →
        x ∉ christmas_2023) ∧
  find_leave_suggestions 2024 christmas_2023 monday_to_friday 2 = Ok [].
Proof.
  assert (MINYEAR < 2024 < MAXYEAR) as Hy by (unfold MINYEAR, MAXYEAR; lia).
  assert (∀ x, year_start 2024 - 1 ≤ x ≤ year_end 2024 + 1 →
               x ∉ christmas_2023) as Hnone.
  { intros x Hx. change (year_start 2024 - 1) with 738885 in Hx.
    change (year_end 2024 + 1) with 739252 in Hx.
    unfold christmas_2023.
    rewrite elem_of_union, !elem_of_singleton. lia. }
  split; [exact Hy|]. split; [exact Hnone|].
  exact (find_leave_suggestions_no_off_days 2024 christmas_2023
           monday_to_friday 2 Hy Hnone).
Defined.

End off_days_and_scan.

(** * [include_sundays] and [main] *)

Section sundays_and_main.
Import holiday_planner.

Implicit Types (off_days holidays : gset Z) (working_days : list Z).

Lemma not_elem_of_without_sunday working_days x :
  x ∉ filter (λ w, w ≠ 6) working_days ↔ (x = 6 ∨ x ∉ working_days).
Proof. rewrite list_elem_of_filter. destruct (decide (x = 6)); tauto. Qed.

Lemma sample_compute_off_days_true year holidays working_days :
  sample.compute_off_days year holidays working_days true
  = compute_off_days year holidays (filter (λ w, w ≠ 6) working_days).
Proof.
  unfold sample.compute_off_days, compute_off_days.
  change (sample.generate_year_dates year) with (generate_year_dates year).
  destruct (generate_year_dates year) as [dates| |]; bind_step;
    [|done|done].
  f_equal. apply set_eq. intros x.
  rewrite !elem_of_add_non_working, elem_of_add_sundays,
    not_elem_of_without_sunday.
  tauto.
Qed.

(** What follows the call of [compute_off_days] in [main], for any
    outcome [c] of that call which is a set exactly for the years from 1
    to 9998. *)
Lemma main_tail_ZeroDivisionError (c : result (gset Z)) year working_days
    threshold :
  ((∃ off_days, c = Ok off_days) ↔ MINYEAR ≤ year < MAXYEAR) →
  (off_days ← of_result c;
   suggestions ←
     of_result (find_leave_suggestions year off_days working_days threshold);
   dates ← of_result (generate_year_dates year);
   let total_working_days := count_working_days working_days dates in
   if bool_decide (total_working_days = 0) then Fails ZeroDivisionError
   else Returns (suggestions, total_working_days))
  = Fails ZeroDivisionError
  ↔ MINYEAR ≤ year < MAXYEAR ∧ ∀ w, w ∈ working_days → ¬ (0 ≤ w ≤ 6).
Proof.
  intros [Hc1 Hc2]. split.
  - destruct c as [off_days| |]; cbn [of_result mbind run_bind];
      [|done|done].
    assert (MINYEAR ≤ year < MAXYEAR) as Hy by (apply Hc1; eauto).
    destruct (find_leave_suggestions year off_days working_days threshold)
      as [l| |]; cbn [of_result mbind run_bind]; [|done|done].
    rewrite generate_year_dates_spec by done.
    cbn [of_result mbind run_bind]. case_bool_decide as Hcount; [|done].
    intros _. split; [exact Hy|]. intros w Hw Hrange.
    destruct (weekday_in_first_week year w Hrange) as (d & Hd & Hwd).
    rewrite count_working_days_filter in Hcount.
    assert (d ∈ filter (λ d, weekday d ∈ working_days)
                  (seqZ (year_start year) (days_in_year year))) as Hin.
    { apply list_elem_of_filter. split; [by rewrite Hwd|].
      apply elem_of_year. pose proof (year_length year).
      pose proof (days_in_year_cases year). lia. }
    destruct (filter (λ d, weekday d ∈ working_days)
                (seqZ (year_start year) (days_in_year year)));
      [by apply elem_of_nil in Hin|simpl in Hcount; lia].
  - intros [Hy Hnone].
    assert (∀ w, 0 ≤ w ≤ 6 → (w ∈ working_days ↔ w ∈ @nil Z)) as HW.
    { intros w Hw. rewrite elem_of_nil. split; [|done].
      intros Hin. by apply (Hnone w). }
    destruct (Hc2 Hy) as [off_days ->]. cbn [of_result mbind run_bind].
    rewrite (find_leave_suggestions_ext_working_days year off_days
               working_days [] threshold HW).
    rewrite find_leave_suggestions_no_working_days by done.
    cbn [of_result mbind run_bind].
    rewrite generate_year_dates_spec by done.
    cbn [of_result mbind run_bind].
    rewrite bool_decide_eq_true_2; [done|].
    rewrite count_working_days_filter.
    assert (filter (λ d, weekday d ∈ working_days)
              (seqZ (year_start year) (days_in_year year)) = []) as ->;
      [|done].
    generalize (seqZ (year_start year) (days_in_year year)).
    intros dates. induction dates as [|d dates IH]; [done|].
    rewrite filter_cons_False; [exact IH|].
    intros Hin. apply (Hnone _ Hin), weekday_range.
Qed.

Lemma compute_off_days_Ok_iff year holidays working_days :
  (∃ off_days, compute_off_days year holidays working_days = Ok off_days)
  ↔ MINYEAR ≤ year < MAXYEAR.
Proof.
  split; [|apply compute_off_days_returns].
  intros [off_days H]. by apply compute_off_days_Ok in H as [? _].
Qed.

(** X16.  In [sample.py], [include_sundays] amounts to taking Sunday out
    of the working days: the off days, and the suggestions scanned from
    them with the list as given, are those of [holiday_planner.py] for
    the list without 6.  The flag changes nothing when 6 is not in the
    list. *)
Theorem sample_include_sundays year holidays working_days threshold :
  sample.compute_off_days year holidays working_days true
  = compute_off_days year holidays (filter (λ w, w ≠ 6) working_days) ∧
  (off_days ← sample.compute_off_days year holidays working_days true;
   sample.find_leave_suggestions year off_days working_days threshold)
  = main_suggestions year holidays (filter (λ w, w ≠ 6) working_days)
      threshold ∧
  (6 ∉ working_days →
   sample.compute_off_days year holidays working_days true
   = sample.compute_off_days year holidays working_days false).
Proof.
  assert (∀ x, x ∉ filter (λ w, w ≠ 6) working_days
               ↔ (x = 6 ∨ x ∉ working_days)) as Hfilter
    by apply not_elem_of_without_sunday.
  pose proof (sample_compute_off_days_true year holidays working_days)
    as Hoff.
  split; [exact Hoff|]. split.
  - rewrite Hoff. unfold main_suggestions.
    destruct (compute_off_days year holidays
                (filter (λ w, w ≠ 6) working_days))
      as [off_days| |] eqn:Hc; bind_step; [|done|done].
    change (sample.find_leave_suggestions year off_days working_days
              threshold)
      with (find_leave_suggestions year off_days working_days threshold).
    apply compute_off_days_Ok in Hc as [_ Hc].
    unfold find_leave_suggestions.
    destruct (generate_year_dates year) as [dates| |] eqn:Hd; bind_step;
      [|done|done].
    apply generate_year_dates_Ok in Hd as [_ ->].
    apply for_each_ext. intros acc d Hd. apply elem_of_year in Hd.
    unfold scan_day.
    destruct (decide (weekday d = 6)) as [Hsun|Hsun].
    + assert (d ∈ off_days) as Hin.
      { apply Hc. right. split; [exact Hd|]. apply Hfilter. by left. }
      rewrite (bool_decide_eq_true_2 (d ∈ off_days) Hin).
      by rewrite !andb_false_r.
    + assert (weekday d ∈ working_days
              ↔ weekday d ∈ filter (λ w, w ≠ 6) working_days) as Hw
        by (rewrite list_elem_of_filter; tauto).
      by rewrite (bool_decide_ext _ _ Hw).
  - intros H6. rewrite Hoff.
    change (sample.compute_off_days year holidays working_days false)
      with (compute_off_days year holidays working_days).
    apply compute_off_days_ext_working_days. intros w _.
    rewrite list_elem_of_filter. split; [tauto|].
    intros Hw. split; [|exact Hw]. by intros ->.
Qed.

(** X17.  [main] divides by the number of working days of the year
    before it prints anything: in both scripts, and in [sample.py] with
    or without [include_sundays], it ends in [ZeroDivisionError] exactly
    when the year is one from 1 to 9998 and no entry of the working-day
    list is a weekday number from 0 to 6. *)
Theorem main_ZeroDivisionError year holidays working_days threshold :
  (holiday_planner_script.main year holidays working_days threshold
   = Fails ZeroDivisionError
   ↔ MINYEAR ≤ year < MAXYEAR ∧ ∀ w, w ∈ working_days → ¬ (0 ≤ w ≤ 6)) ∧
  ∀ include_sundays,
    sample_script.main year holidays working_days threshold include_sundays
    = Fails ZeroDivisionError
    ↔ MINYEAR ≤ year < MAXYEAR ∧ ∀ w, w ∈ working_days → ¬ (0 ≤ w ≤ 6).
Proof.
  split.
  - apply main_tail_ZeroDivisionError, compute_off_days_Ok_iff.
  - intros include_sundays. unfold sample_script.main.
    change sample.find_leave_suggestions with find_leave_suggestions.
    change sample.generate_year_dates with generate_year_dates.
    apply main_tail_ZeroDivisionError.
    destruct include_sundays.
    + rewrite sample_compute_off_days_true. apply compute_off_days_Ok_iff.
    + change (sample.compute_off_days year holidays working_days false)
        with (compute_off_days year holidays working_days).
      apply compute_off_days_Ok_iff.
Qed.

(** X18.  When [main] gets to print, the suggestions are those of the
    two calls before, and the number of working days it divides by is
    the number of dates of the year whose weekday is in the list: at
    least 52 and at most the days of the year, so that the attendance
    impact it prints is below 2 per cent. *)
Theorem main_returns year holidays working_days threshold suggestions
    total_working_days :
  holiday_planner_script.main year holidays working_days threshold
  = Returns (suggestions, total_working_days) →
  main_suggestions year holidays working_days threshold = Ok suggestions ∧
  total_working_days
  = Z.of_nat (length (filter (λ d, weekday d ∈ working_days)
                        (seqZ (year_start year) (days_in_year year)))) ∧
  52 ≤ total_working_days ≤ days_in_year year.
Proof.
  unfold holiday_planner_script.main, main_suggestions.
  destruct (compute_off_days year holidays working_days)
    as [off_days| |] eqn:Hc; cbn [of_result mbind run_bind result_bind];
    [|done|done].
  apply compute_off_days_Ok in Hc as [Hy _].
  destruct (find_leave_suggestions year off_days working_days threshold)
    as [l| |]; cbn [of_result mbind run_bind]; [|done|done].
  rewrite generate_year_dates_spec by done.
  cbn [of_result mbind run_bind]. case_bool_decide as Hcount; [done|].
  intros [= <- <-]. split; [done|].
  rewrite count_working_days_filter in *. split; [done|].
  pose proof (days_in_year_cases year) as Hdays.
  set (dates := seqZ (year_start year) (days_in_year year)) in *.
  set (worked := filter (λ d, weekday d ∈ working_days) dates) in *.
  split.
  - destruct worked as [|d0 worked'] eqn:Hworked; [done|].
    assert (d0 ∈ worked) as Hd0 by (rewrite Hworked; apply list_elem_of_here).
    apply list_elem_of_filter in Hd0 as [Hw0 _].
    destruct (weekday_in_first_week year (weekday d0) (weekday_range d0))
      as (d & Hd & Hwd).
    set (same := (λ j : nat, d + 7 * Z.of_nat j) <$> seq 0 52).
    assert (same ⊆+ worked) as Hsub.
    { apply NoDup_submseteq.
      - apply NoDup_fmap_2; [|apply NoDup_seq]. intros i j Hij. lia.
      - intros x Hx. apply list_elem_of_fmap in Hx as (j & -> & Hj).
        apply elem_of_seq in Hj. apply list_elem_of_filter. split.
        + replace (weekday (d + 7 * Z.of_nat j)) with (weekday d);
            [by rewrite Hwd|].
          unfold weekday.
          replace (d + 7 * Z.of_nat j + 6) with (d + 6 + Z.of_nat j * 7)
            by lia.
          by rewrite Z_mod_plus_full.
        + apply elem_of_year. pose proof (year_length year). lia. }
    apply submseteq_length in Hsub. rewrite <- Hworked.
    unfold same in Hsub. rewrite length_fmap, length_seq in Hsub. lia.
  - pose proof (length_filter (λ d, weekday d ∈ working_days) dates) as Hle.
    unfold dates in Hle at 2. rewrite length_seqZ in Hle. fold worked in Hle.
    lia.
Qed.

(** X18 (witness): the year 2023, Monday to Friday, threshold 5: one
    suggestion and 260 working days. *)
Lemma main_returns_witness :
  holiday_planner_script.main 2023 christmas_2023 monday_to_friday 5
  = Returns ([Suggestion 738880 738877 738881 5], 260) ∧
  main_suggestions 2023 christmas_2023 monday_to_friday 5
  = Ok [Suggestion 738880 738877 738881 5] ∧
  260 = Z.of_nat (length (filter (λ d, weekday d ∈ monday_to_friday)
                            (seqZ (year_start 2023) (days_in_year 2023)))) ∧
  52 ≤ 260 ≤ days_in_year 2023.
Proof.
  split; [vm_compute; reflexivity|].
  apply (main_returns 2023 christmas_2023 monday_to_friday 5
           [Suggestion 738880 738877 738881 5] 260).
  vm_compute. reflexivity.
Defined.

End sundays_and_main.

(** * The input functions *)

Section input_functions.

Implicit Types (strptime : string → option Z) (rows : list (list string))
  (walk : list component) (holidays : gset Z).

(** The rows that give a date: those with a first cell that [strptime]
    accepts. *)
Lemma parse_csv_fold strptime rows holidays d :
  d ∈ foldl (λ (holidays : gset Z) (row : list string),
               match row !! 0%nat with
               | None => holidays
               | Some cell =>
                   match strptime cell with
                   | Some dt => {[dt]} ∪ holidays
                   | None => holidays
                   end
               end) holidays rows
  ↔ d ∈ holidays ∨
    ∃ row cell, row ∈ rows ∧ row !! 0%nat = Some cell ∧
                strptime cell = Some d.
Proof.
  revert holidays.
  induction rows as [|row rows IH]; intros holidays; simpl.
  - split; [by left|]. intros [?|(row & cell & Hin & _)]; [done|].
    by apply elem_of_nil in Hin.
  - rewrite IH. split.
    + intros [Hd|(row' & cell & Hin & Hcell & Hp)].
      * destruct (row !! 0%nat) as [cell|] eqn:Hcell; [|by left].
        destruct (strptime cell) as [dt|] eqn:Hp; [|by left].
        apply elem_of_union in Hd as [Hd|Hd]; [|by left].
        apply elem_of_singleton in Hd as ->.
        right. exists row, cell. split; [apply list_elem_of_here|done].
      * right. exists row', cell.
        split; [by apply list_elem_of_further|done].
    + intros [Hd|(row' & cell & Hin & Hcell & Hp)].
      * left. destruct (row !! 0%nat) as [cell|]; [|done].
        destruct (strptime cell); [|done].
        apply elem_of_union. by right.
      * apply elem_of_cons in Hin as [->|Hin].
        -- left. rewrite Hcell, Hp. apply elem_of_union. left.
           by apply elem_of_singleton.
        -- right. by exists row', cell.
Qed.

(** X19.  [parse_csv] of [holiday_planner.py] skips what it cannot read
    and nothing else: a date is in the result exactly when some row has
    it, in the format, as its first cell.  Blank rows, rows whose first
    cell is no date, the other cells, the order and the repetitions of
    the rows make no difference. *)
Theorem parse_csv_dates strptime rows d :
  d ∈ holiday_planner_script.parse_csv strptime rows
  ↔ ∃ row cell, row ∈ rows ∧ head row = Some cell ∧ strptime cell = Some d.
Proof.
  unfold holiday_planner_script.parse_csv.
  rewrite parse_csv_fold. split.
  - intros [Hd|(row & cell & Hin & Hcell & Hp)];
      [by apply not_elem_of_empty in Hd|].
    exists row, cell. by rewrite head_lookup.
  - intros (row & cell & Hin & Hcell & Hp). right.
    exists row, cell. by rewrite <- head_lookup.
Qed.

Lemma sample_parse_csv_loop strptime rows holidays :
  sample_script.parse_csv_loop strptime holidays rows
  = if bool_decide ([] ∈ rows) then Fails IndexError
    else Returns
           (foldl (λ (holidays : gset Z) (row : list string),
                     match row !! 0%nat with
                     | None => holidays
                     | Some cell =>
                         match strptime cell with
                         | Some dt => {[dt]} ∪ holidays
                         | None => holidays
                         end
                     end) holidays rows).
Proof.
  revert holidays.
  induction rows as [|row rows IH]; intros holidays;
    cbn [sample_script.parse_csv_loop foldl].
  - rewrite bool_decide_eq_false_2 by apply not_elem_of_nil. done.
  - destruct row as [|cell row]; cbn [lookup list_lookup].
    + rewrite bool_decide_eq_true_2 by apply list_elem_of_here. done.
    + assert (([] : list string) ∈ (cell :: row) :: rows ↔ [] ∈ rows) as Hin.
      { rewrite elem_of_cons. split; [intros [?|?]; [done|done]|by right]. }
      rewrite (bool_decide_ext _ _ Hin).
      destruct (strptime cell); apply IH.
Qed.

(** X20.  [parse_csv] of [sample.py] without pandas differs on blank
    rows: one blank row anywhere makes it end the program with exit
    status 1, where [holiday_planner.py] skips the row; with no blank
    row it returns the same set.  A failure of pandas falls back to the
    same reader, and asking for pandas when it is not installed returns
    the empty set without reading any row. *)
Theorem sample_parse_csv strptime rows PANDAS_AVAILABLE pandas :
  sample_script.parse_csv strptime PANDAS_AVAILABLE pandas rows false
  = (if bool_decide ([] ∈ rows) then Fails (SystemExit 1)
     else Returns (holiday_planner_script.parse_csv strptime rows)) ∧
  sample_script.parse_csv strptime true None rows true
  = sample_script.parse_csv strptime true None rows false ∧
  (∀ from_pandas,
     sample_script.parse_csv strptime true (Some from_pandas) rows true
     = Returns from_pandas) ∧
  sample_script.parse_csv strptime false pandas rows true = Returns ∅.
Proof.
  unfold sample_script.parse_csv, holiday_planner_script.parse_csv.
  cbn [andb negb]. rewrite sample_parse_csv_loop.
  split; [by case_bool_decide|]. split; [done|]. split; done.
Qed.

Lemma parse_ics_loop_Returns walk holidays :
  Forall (λ c, name c = "VEVENT" → is_Some (dtstart c)) walk →
  ∃ result : gset Z,
    holiday_planner_script.parse_ics_loop holidays walk = Returns result ∧
    ∀ d, d ∈ result ↔
         d ∈ holidays ∨
         ∃ c dt, c ∈ walk ∧ name c = "VEVENT" ∧ dtstart c = Some dt ∧
                 date_of dt = d.
Proof.
  intros Hall. revert holidays.
  induction Hall as [|c walk Hc _ IH]; intros holidays; simpl.
  - exists holidays. split; [done|]. intros d. split; [by left|].
    intros [?|(c & dt & Hin & _)]; [done|]. by apply elem_of_nil in Hin.
  - case_bool_decide as Hname.
    + destruct (Hc Hname) as [dt Hdt]. rewrite Hdt.
      destruct (IH ({[date_of dt]} ∪ holidays)) as (result & -> & Hres).
      exists result. split; [done|]. intros d. rewrite Hres.
      rewrite elem_of_union, elem_of_singleton. split.
      * intros [[->|Hd]|(c' & dt' & Hin & Hn & Hs & Hd)].
        -- right. exists c, dt. split; [apply list_elem_of_here|done].
        -- by left.
        -- right. exists c', dt'.
           split; [by apply list_elem_of_further|done].
      * intros [Hd|(c' & dt' & Hin & Hn & Hs & Hd)]; [left; by right|].
        apply elem_of_cons in Hin as [->|Hin].
        -- left. left. rewrite Hdt in Hs. by injection Hs as <-.
        -- right. by exists c', dt'.
    + destruct (IH holidays) as (result & -> & Hres).
      exists result. split; [done|]. intros d. rewrite Hres. split.
      * intros [Hd|(c' & dt' & Hin & Hn & Hs & Hd)]; [by left|].
        right. exists c', dt'. split; [by apply list_elem_of_further|done].
      * intros [Hd|(c' & dt' & Hin & Hn & Hs & Hd)]; [by left|].
        apply elem_of_cons in Hin as [->|Hin]; [contradiction|].
        right. by exists c', dt'.
Qed.

Lemma parse_ics_loop_Fails walk holidays :
  Exists (λ c, name c = "VEVENT" ∧ dtstart c = None) walk →
  holiday_planner_script.parse_ics_loop holidays walk = Fails AttributeError.
Proof.
  intros Hex. revert holidays.
  induction walk as [|c walk IH]; intros holidays; simpl.
  - by apply Exists_nil in Hex.
  - apply Exists_cons in Hex as [[Hname Hdt]|Hex].
    + by rewrite (bool_decide_eq_true_2 _ Hname), Hdt.
    + case_bool_decide; [|by apply IH].
      destruct (dtstart c); [by apply IH|done].
Qed.

(** X21.  When every VEVENT has a DTSTART, [parse_ics] returns, in both
    scripts, the dates of the DTSTART of the VEVENT components: other
    components are passed over and a [datetime] counts for its date. *)
Theorem parse_ics_dates walk :
  Forall (λ c, name c = "VEVENT" → is_Some (dtstart c)) walk →
  ∃ holidays,
    holiday_planner_script.parse_ics walk = Returns holidays ∧
    sample_script.parse_ics walk = Returns holidays ∧
    ∀ d, d ∈ holidays ↔
         ∃ c dt, c ∈ walk ∧ name c = "VEVENT" ∧ dtstart c = Some dt ∧
                 date_of dt = d.
Proof.
  intros Hall.
  destruct (parse_ics_loop_Returns walk ∅ Hall) as (holidays & Hrun & Hres).
  exists holidays. split; [exact Hrun|]. split.
  - unfold sample_script.parse_ics.
    change (sample_script.parse_ics_loop ∅ walk)
      with (holiday_planner_script.parse_ics_loop ∅ walk).
    by rewrite Hrun.
  - intros d. rewrite Hres. split; [|by right].
    intros [Hd|?]; [by apply not_elem_of_empty in Hd|done].
Qed.

(** X21 (witness): a calendar with two events, one with a date and one
    with a date and a time. *)
Lemma parse_ics_dates_witness :
  Forall (λ c, name c = "VEVENT" → is_Some (dtstart c))
    [Component "VCALENDAR" None;
     Component "VEVENT" (Some (DateValue 738879));
     Component "VEVENT" (Some (DateTimeValue 738881 32400))] ∧
  ∃ holidays,
    holiday_planner_script.parse_ics
      [Component "VCALENDAR" None;
       Component "VEVENT" (Some (DateValue 738879));
       Component "VEVENT" (Some (DateTimeValue 738881 32400))]
    = Returns holidays ∧
    sample_script.parse_ics
      [Component "VCALENDAR" None;
       Component "VEVENT" (Some (DateValue 738879));
       Component "VEVENT" (Some (DateTimeValue 738881 32400))]
    = Returns holidays ∧
    ∀ d, d ∈ holidays ↔
         ∃ c dt, c ∈ [Component "VCALENDAR" None;
                      Component "VEVENT" (Some (DateValue 738879));
                      Component "VEVENT" (Some (DateTimeValue 738881 32400))]
                 ∧ name c = "VEVENT" ∧ dtstart c = Some dt ∧
                 date_of dt = d.
Proof.
  assert (Forall (λ c, name c = "VEVENT" → is_Some (dtstart c))
            [Component "VCALENDAR" None;
             Component "VEVENT" (Some (DateValue 738879));
             Component "VEVENT" (Some (DateTimeValue 738881 32400))]) as Hall.
  { repeat constructor; simpl; first [discriminate | eauto]. }
  split; [exact Hall|].
  exact (parse_ics_dates _ Hall).
Defined.

(** X22.  A VEVENT without DTSTART ends [parse_ics] of
    [holiday_planner.py] in an uncaught [AttributeError] and that of
    [sample.py] in exit status 1, whatever the other components are. *)
Theorem parse_ics_missing_dtstart walk :
  Exists (λ c, name c = "VEVENT" ∧ dtstart c = None) walk →
  holiday_planner_script.parse_ics walk = Fails AttributeError ∧
  sample_script.parse_ics walk = Fails (SystemExit 1).
Proof.
  intros Hex. pose proof (parse_ics_loop_Fails walk ∅ Hex) as Hrun.
  split; [exact Hrun|].
  unfold sample_script.parse_ics.
  change (sample_script.parse_ics_loop ∅ walk)
    with (holiday_planner_script.parse_ics_loop ∅ walk).
  by rewrite Hrun.
Qed.

(** X22 (witness): an event without DTSTART after one with it. *)
Lemma parse_ics_missing_dtstart_witness :
  Exists (λ c, name c = "VEVENT" ∧ dtstart c = None)
    [Component "VEVENT" (Some (DateValue 738879));
     Component "VEVENT" None] ∧
  holiday_planner_script.parse_ics
    [Component "VEVENT" (Some (DateValue 738879)); Component "VEVENT" None]
  = Fails AttributeError ∧
  sample_script.parse_ics
    [Component "VEVENT" (Some (DateValue 738879)); Component "VEVENT" None]
  = Fails (SystemExit 1).
Proof.
  assert (Exists (λ c, name c = "VEVENT" ∧ dtstart c = None)
            [Component "VEVENT" (Some (DateValue 738879));
             Component "VEVENT" None]) as Hex.
  { apply Exists_cons_tl, Exists_cons_hd. split; reflexivity. }
  split; [exact Hex|].
  exact (parse_ics_missing_dtstart _ Hex).
Defined.

End input_functions.

(** * The builder over set objects *)

Section builder_set_objects.
Import store.

Implicit Types (h : list (gset Z)) (working_days : list Z).

Lemma store_add_non_working working_days dates h (O : gset Z) :
  for_each_state
    (λ (_ : unit) d,
       if negb (bool_decide (weekday d ∈ working_days))
       then set_add (length h) d else ret tt) tt dates (h ++ [O])
  = (Ok tt,
     h ++ [foldl (λ (off_days : gset Z) d,
                    if negb (bool_decide (weekday d ∈ working_days))
                    then {[d]} ∪ off_days else off_days) O dates]).
Proof.
  revert O. induction dates as [|d dates IH]; intros O; simpl; [done|].
  unfold bind at 1.
  destruct (negb (bool_decide (weekday d ∈ working_days))).
  - unfold set_add at 1.
    rewrite alter_app_r_alt by done. rewrite Nat.sub_diag.
    cbn [alter list_alter]. apply IH.
  - unfold ret at 1. apply IH.
Qed.

Lemma store_compute_off_days h (holidays : nat) year working_days :
  store_off_days.compute_off_days year holidays working_days h
  = match holiday_planner.compute_off_days year (contents h holidays)
            working_days with
    | Ok off_days => (Ok (length h), h ++ [off_days])
    | Raise e => (Raise e, h)
    | OutOfFuel => (OutOfFuel, h)
    end.
Proof.
  unfold store_off_days.compute_off_days,
    holiday_planner.compute_off_days, bind, lift.
  destruct (holiday_planner.generate_year_dates year) as [dates|e|];
    bind_step; [|done|done].
  unfold set_copy at 1. by rewrite store_add_non_working.
Qed.

(** X23.  [compute_off_days] works on a copy: run over a store of set
    objects it returns a new object whose contents are the off days
    computed over set values, and every object that existed before, the
    caller's holiday set among them, is unchanged; when the year is
    rejected the store is left as it was. *)
Theorem compute_off_days_preserves_store h (holidays : nat) year
    working_days :
  ∃ h',
    store_off_days.compute_off_days year holidays working_days h
    = (const (length h)
         <$> holiday_planner.compute_off_days year (contents h holidays)
               working_days,
       h') ∧
    (∀ r s, h !! r = Some s → h' !! r = Some s) ∧
    (∀ off_days,
       holiday_planner.compute_off_days year (contents h holidays)
         working_days = Ok off_days →
       h' = h ++ [off_days]) ∧
    (∀ e, holiday_planner.compute_off_days year (contents h holidays)
            working_days = Raise e →
          h' = h).
Proof.
  rewrite store_compute_off_days.
  destruct (holiday_planner.compute_off_days year (contents h holidays)
              working_days) as [off_days|e|]; cbn [fmap result_fmap].
  - exists (h ++ [off_days]). split; [done|]. split; [|split].
    + intros r s. apply lookup_app_l_Some.
    + by intros ? [= <-].
    + done.
  - exists h. repeat split; done.
  - exists h. repeat split; done.
Qed.

(** X24.  The two calls of [main] run one after the other over a store
    of set objects return what they return over set values, and leave
    the holiday set that the parser returned, like every other object
    of the store, as it was. *)
Theorem main_suggestions_preserves_store h (holidays : nat) year
    working_days threshold :
  ∃ h',
    store_off_days.main_suggestions year holidays working_days threshold h
    = (holiday_planner.main_suggestions year (contents h holidays)
         working_days threshold, h') ∧
    (∀ r s, h !! r = Some s → h' !! r = Some s).
Proof.
  unfold store_off_days.main_suggestions,
    holiday_planner.main_suggestions.
  unfold bind at 1. rewrite store_compute_off_days.
  destruct (holiday_planner.compute_off_days year (contents h holidays)
              working_days) as [off_days|e|]; bind_step;
    [|by exists h..].
  unfold store.find_leave_suggestions,
    holiday_planner.find_leave_suggestions, bind, lift.
  destruct (holiday_planner.generate_year_dates year) as [dates|e|];
    bind_step.
  - destruct (store_for_each (length h) working_days threshold dates []
                (h ++ [off_days]) off_days) as (ds & -> & _);
      [by apply list_lookup_middle|].
    eexists. split; [reflexivity|].
    intros r s Hr. by apply lookup_app_l_Some, lookup_app_l_Some.
  - eexists. split; [reflexivity|]. intros r s. apply lookup_app_l_Some.
  - eexists. split; [reflexivity|]. intros r s. apply lookup_app_l_Some.
Qed.

End builder_set_objects.
